(** * MiscTypes.cpp: interface type descriptors and the enumerator adapters

    A shallow embedding of [com/win32com/src/MiscTypes.cpp]:
    - the type descriptors ([PyComTypeObject] and its two specialisations),
      their method chains and [is_interface_type];
    - the iterator entry points [PyComEnumTypeObject::iter],
      [PyComEnumTypeObject::iternext] and [PyComEnumProviderTypeObject::iter],
      written as programs over the calls they make into the host runtime;
    - a reference model of the host runtime, against which the scenarios of
      the specification are run. *)

From Stdlib Require Import ZArith NArith String List Lia.
From stdpp Require Import base option strings list gmap.

Open Scope string_scope.
Open Scope Z_scope.

(** ** Build configuration

    What the translation unit takes from the compiler command line and from
    the headers: the two preprocessor conditions the file tests, the values
    of the two flag constants and the sizes of the two structures it names
    in a [sizeof]. *)
Class PyConfig := {
  OLD_PYTHON_TYPES : bool;
  NDEBUG : bool;
  Py_TPFLAGS_DEFAULT : Z;
  Py_TPFLAGS_HAVE_ITER : Z;
  sizeof_PyTypeObject : Z;
  sizeof_PyIBase : Z
}.

(** ** Addresses

    Objects live in a heap indexed by addresses. A nullable pointer is an
    [option ptr]; [None] is NULL. *)
Abbreviation ptr := N (only parsing).

(** Addresses of the statically allocated objects the file refers to. *)
Definition Py_None : ptr := 1%N.
Definition PyType_Type : ptr := 2%N.
Definition PyInterfaceType_Type : ptr := 3%N.
Definition PyOleEmptyType : ptr := 4%N.
Definition PyOleMissingType : ptr := 5%N.
Definition PyOleArgNotFoundType : ptr := 6%N.
Definition PyExc_StopIteration : ptr := 7%N.
Definition PyExc_TypeError : ptr := 8%N.
Definition PyExc_AttributeError : ptr := 9%N.
Definition PyExc_IndexError : ptr := 10%N.
Definition PyExc_SystemError : ptr := 11%N.
Definition PyNone_Type : ptr := 12%N.
Definition PyInt_Type : ptr := 13%N.
Definition PyTuple_Type : ptr := 14%N.
Definition PySeqIter_Type : ptr := 15%N.
Definition PyCFunction_Type : ptr := 16%N.

(** ** Type objects *)

(** The C functions that appear in the slots of the type records. *)
Inductive slotfn :=
  | FN_PyIBase_dealloc
  | FN_PyIBase_setattr
  | FN_PyIBase_cmp
  | FN_PyIBase_repr
  | FN_PyIBase_getattro
  | FN_PyObject_GenericGetAttr
  | FN_PyComEnumTypeObject_iter
  | FN_PyComEnumTypeObject_iternext
  | FN_PyComEnumProviderTypeObject_iter.

(** The implementations a method table entry can point to. The methods of the
    wrapped interfaces are defined elsewhere in the repository; the model
    knows the enumerator's fetch and methods that just answer with a given
    object or raise a given exception. *)
Inductive PyCFunction :=
  | IEnum_Next
  | Method_Return (r : ptr)
  | Method_Raise (exc : ptr).

Record PyMethodDef := {
  ml_name : string;
  ml_meth : PyCFunction
}.

(** [PyTypeObject], restricted to the header and to the slots that are
    non-zero in [type_template] or assigned by a constructor of this file.
    A zero slot is [None]. *)
Record PyTypeObject := {
  ob_type : ptr;
  tp_name : string;
  tp_basicsize : Z;
  tp_itemsize : Z;
  tp_dealloc : option slotfn;
  tp_setattr : option slotfn;
  tp_compare : option slotfn;
  tp_repr : option slotfn;
  tp_getattro : option slotfn;
  tp_flags : Z;
  tp_doc : option string;
  tp_iter : option slotfn;
  tp_iternext : option slotfn;
  tp_base : option ptr
}.

(** A pointer to the [chain] member of the descriptor at address [t]. *)
Inductive chainptr := chain_of (t : ptr).

Record PyMethodChain := {
  methods : list PyMethodDef;
  link : option chainptr
}.

(** [class PyComTypeObject : public PyTypeObject]. The constructor of the
    wrapped instances is kept as the address of the function. *)
Record PyComTypeObject := {
  type : PyTypeObject;
  chain : PyMethodChain;
  baseType : option ptr;
  ctor : N
}.

(** [class PyComEnumProviderTypeObject : public PyComTypeObject]. *)
Record PyComEnumProviderTypeObject := {
  comtype : PyComTypeObject;
  enum_method_name : string
}.

Definition set_tp_name (v : string) (t : PyTypeObject) : PyTypeObject :=
  {| ob_type := ob_type t; tp_name := v; tp_basicsize := tp_basicsize t;
     tp_itemsize := tp_itemsize t; tp_dealloc := tp_dealloc t;
     tp_setattr := tp_setattr t; tp_compare := tp_compare t;
     tp_repr := tp_repr t; tp_getattro := tp_getattro t;
     tp_flags := tp_flags t; tp_doc := tp_doc t; tp_iter := tp_iter t;
     tp_iternext := tp_iternext t; tp_base := tp_base t |}.

Definition set_tp_basicsize (v : Z) (t : PyTypeObject) : PyTypeObject :=
  {| ob_type := ob_type t; tp_name := tp_name t; tp_basicsize := v;
     tp_itemsize := tp_itemsize t; tp_dealloc := tp_dealloc t;
     tp_setattr := tp_setattr t; tp_compare := tp_compare t;
     tp_repr := tp_repr t; tp_getattro := tp_getattro t;
     tp_flags := tp_flags t; tp_doc := tp_doc t; tp_iter := tp_iter t;
     tp_iternext := tp_iternext t; tp_base := tp_base t |}.

Definition set_tp_flags (v : Z) (t : PyTypeObject) : PyTypeObject :=
  {| ob_type := ob_type t; tp_name := tp_name t;
     tp_basicsize := tp_basicsize t;
     tp_itemsize := tp_itemsize t; tp_dealloc := tp_dealloc t;
     tp_setattr := tp_setattr t; tp_compare := tp_compare t;
     tp_repr := tp_repr t; tp_getattro := tp_getattro t;
     tp_flags := v; tp_doc := tp_doc t; tp_iter := tp_iter t;
     tp_iternext := tp_iternext t; tp_base := tp_base t |}.

Definition set_tp_iter (v : option slotfn) (t : PyTypeObject) : PyTypeObject :=
  {| ob_type := ob_type t; tp_name := tp_name t;
     tp_basicsize := tp_basicsize t;
     tp_itemsize := tp_itemsize t; tp_dealloc := tp_dealloc t;
     tp_setattr := tp_setattr t; tp_compare := tp_compare t;
     tp_repr := tp_repr t; tp_getattro := tp_getattro t;
     tp_flags := tp_flags t; tp_doc := tp_doc t; tp_iter := v;
     tp_iternext := tp_iternext t; tp_base := tp_base t |}.

Definition set_tp_iternext (v : option slotfn) (t : PyTypeObject)
    : PyTypeObject :=
  {| ob_type := ob_type t; tp_name := tp_name t;
     tp_basicsize := tp_basicsize t;
     tp_itemsize := tp_itemsize t; tp_dealloc := tp_dealloc t;
     tp_setattr := tp_setattr t; tp_compare := tp_compare t;
     tp_repr := tp_repr t; tp_getattro := tp_getattro t;
     tp_flags := tp_flags t; tp_doc := tp_doc t; tp_iter := tp_iter t;
     tp_iternext := v; tp_base := tp_base t |}.

(** Assignment to the [PyTypeObject] part of a descriptor. *)
Definition with_type (f : PyTypeObject → PyTypeObject) (t : PyComTypeObject)
    : PyComTypeObject :=
  {| type := f (type t); chain := chain t; baseType := baseType t;
     ctor := ctor t |}.

Section Descriptors.
Context `{cfg : PyConfig}.

(** The [static PyTypeObject PyInterfaceType_Type]: the object whose address
    marks the descriptors. The initialiser stops at [tp_doc]; what follows
    is zero. *)
Definition PyInterfaceType_Type_object : PyTypeObject :=
  {| ob_type := PyType_Type;
     tp_name := "interface-type";
     tp_basicsize := sizeof_PyTypeObject;
     tp_itemsize := 0;
     tp_dealloc := None;
     tp_setattr := None;
     tp_compare := None;
     tp_repr := None;
     tp_getattro := Some FN_PyObject_GenericGetAttr;
     tp_flags := Py_TPFLAGS_DEFAULT;
     tp_doc := Some "Define the behavior of a PythonCOM Interface type.";
     tp_iter := None;
     tp_iternext := None;
     tp_base := None |}.

(** The [static const PyTypeObject type_template] inside the constructor. *)
Definition type_template : PyTypeObject :=
  {| ob_type := if OLD_PYTHON_TYPES then PyInterfaceType_Type
                else PyType_Type;
     tp_name := "PythonComTypeTemplate";
     tp_basicsize := sizeof_PyIBase;
     tp_itemsize := 0;
     tp_dealloc := Some FN_PyIBase_dealloc;
     tp_setattr := Some FN_PyIBase_setattr;
     tp_compare := Some FN_PyIBase_cmp;
     tp_repr := Some FN_PyIBase_repr;
     tp_getattro := Some FN_PyIBase_getattro;
     tp_flags := 0;
     tp_doc := None;
     tp_iter := None;
     tp_iternext := None;
     tp_base := if OLD_PYTHON_TYPES then None
                else Some PyInterfaceType_Type |}.

(** [PyComTypeObject::PyComTypeObject]: the value of [*this] when the
    constructor returns. *)
Definition PyComTypeObject_ctor (name : string) (pBase : option ptr)
    (typeSize : Z) (methodList : list PyMethodDef) (thector : N)
    : PyComTypeObject :=
  let this :=
    {| type := type_template;
       chain := {| methods := methodList;
                   link := match pBase with
                           | Some b => Some (chain_of b)
                           | None => None
                           end |};
       baseType := pBase;
       ctor := thector |} in
  let this := with_type (set_tp_name name) this in
  with_type (set_tp_basicsize typeSize) this.

(** [PyComEnumTypeObject::PyComEnumTypeObject]. *)
Definition PyComEnumTypeObject_ctor (name : string) (pBase : option ptr)
    (typeSize : Z) (methodList : list PyMethodDef) (thector : N)
    : PyComTypeObject :=
  let this := PyComTypeObject_ctor name pBase typeSize methodList thector in
  let this := with_type (set_tp_iter (Some FN_PyComEnumTypeObject_iter)) this in
  let this :=
    with_type (set_tp_iternext (Some FN_PyComEnumTypeObject_iternext)) this in
  with_type
    (λ t, set_tp_flags (Z.lor (tp_flags t) Py_TPFLAGS_HAVE_ITER) t) this.

(** [PyComEnumProviderTypeObject::PyComEnumProviderTypeObject]. *)
Definition PyComEnumProviderTypeObject_ctor (name : string)
    (pBase : option ptr) (typeSize : Z) (methodList : list PyMethodDef)
    (thector : N) (penum_method_name : string)
    : PyComEnumProviderTypeObject :=
  let base := PyComTypeObject_ctor name pBase typeSize methodList thector in
  let base :=
    with_type (set_tp_iter (Some FN_PyComEnumProviderTypeObject_iter)) base in
  (* tp_iternext remains NULL *)
  let base :=
    with_type
      (λ t, set_tp_flags (Z.lor (tp_flags t) Py_TPFLAGS_HAVE_ITER) t) base in
  {| comtype := base; enum_method_name := penum_method_name |}.
End Descriptors.

(** ** Objects *)

(** What the overridable [PyIBase::iter] of an instance answers: NULL with no
    error (the default), an object, or NULL with an exception set. *)
Inductive Hook :=
  | Hook_null
  | Hook_value (r : ptr)
  | Hook_error (exc : ptr).

(** One position of a wrapped native enumerator: an item, or a position at
    which fetching fails. *)
Inductive Elt :=
  | Elem (item : ptr)
  | Broken (exc : ptr).

(** The objects of the heap: the three kinds of type object; the instances
    of the wrapper types ([OIBase]: the address of the descriptor the
    instance was created for, which is its [ob_type], what its hook answers
    and the cursor of the native enumerator it wraps); objects that are a
    header only; and the host's None, integers, tuples, sequence iterators
    and bound methods. *)
Inductive PyObject :=
  | OType (t : PyTypeObject)
  | OComType (t : PyComTypeObject)
  | OComEnumProviderType (t : PyComEnumProviderTypeObject)
  | OIBase (tp : ptr) (hook : Hook) (cursor : list Elt)
  | OPlain (tp : ptr)
  | ONone
  | OInt (ob_ival : Z)
  | OTuple (ob_item : list (option ptr))
  | OSeqIter (it_index : Z) (it_seq : option ptr)
  | OCFunction (m_ml : PyMethodDef) (m_self : ptr).

(** [ob->ob_type]. *)
Definition Py_TYPE (o : PyObject) : ptr :=
  match o with
  | OType t => ob_type t
  | OComType t => ob_type (type t)
  | OComEnumProviderType t => ob_type (type (comtype t))
  | OIBase tp _ _ => tp
  | OPlain tp => tp
  | ONone => PyNone_Type
  | OInt _ => PyInt_Type
  | OTuple _ => PyTuple_Type
  | OSeqIter _ _ => PySeqIter_Type
  | OCFunction _ _ => PyCFunction_Type
  end.

(** The cast [(PyTypeObject * )ob], defined on type objects. *)
Definition as_PyTypeObject (o : PyObject) : option PyTypeObject :=
  match o with
  | OType t => Some t
  | OComType t => Some (type t)
  | OComEnumProviderType t => Some (type (comtype t))
  | _ => None
  end.

(** The cast to [PyComTypeObject *], defined on descriptors. *)
Definition as_PyComTypeObject (o : PyObject) : option PyComTypeObject :=
  match o with
  | OComType t => Some t
  | OComEnumProviderType t => Some (comtype t)
  | _ => None
  end.

(** [PyOleEmpty::PyOleEmpty], [PyOleMissing::PyOleMissing] and
    [PyOleArgNotFound::PyOleArgNotFound]: objects that are a header only. *)
Definition PyOleEmpty_ctor : PyObject := OPlain PyOleEmptyType.
Definition PyOleMissing_ctor : PyObject := OPlain PyOleMissingType.
Definition PyOleArgNotFound_ctor : PyObject := OPlain PyOleArgNotFoundType.

Section Classification.
Context `{cfg : PyConfig}.

(** [PyComTypeObject::is_interface_type]. [None] when [ob] does not point to
    an object, or when the cast is applied to something that is no type. *)
Definition is_interface_type (h : gmap N PyObject) (ob : ptr) : option bool :=
  o ← h !! ob;
  if OLD_PYTHON_TYPES then
    Some (bool_decide (Py_TYPE o = PyInterfaceType_Type))
  else if bool_decide (Py_TYPE o = PyType_Type) then
    t ← as_PyTypeObject o;
    Some (bool_decide (tp_base t = Some PyInterfaceType_Type))
  else Some false.

(** An object is the result of one of the three descriptor constructors,
    called with base [pBase] and method table [methodList]. *)
Inductive constructed (pBase : option ptr) (methodList : list PyMethodDef)
    : PyObject → Prop :=
  | constructed_com name typeSize thector :
      constructed pBase methodList
        (OComType (PyComTypeObject_ctor name pBase typeSize methodList thector))
  | constructed_enum name typeSize thector :
      constructed pBase methodList
        (OComType
           (PyComEnumTypeObject_ctor name pBase typeSize methodList thector))
  | constructed_provider name typeSize thector penum_method_name :
      constructed pBase methodList
        (OComEnumProviderType
           (PyComEnumProviderTypeObject_ctor name pBase typeSize methodList
              thector penum_method_name)).
End Classification.

(** ** Method chains *)

(** First entry of a method table with the given name. *)
Fixpoint find_method (ml : list PyMethodDef) (name : string)
    : option PyMethodDef :=
  match ml with
  | [] => None
  | m :: ml' => if bool_decide (ml_name m = name) then Some m
                else find_method ml' name
  end.

(** The chain a [chainptr] points to. *)
Definition chain_at (h : gmap N PyObject) (c : chainptr)
    : option PyMethodChain :=
  match c with
  | chain_of t => o ← h !! t; t ← as_PyComTypeObject o; Some (chain t)
  end.

(** Modelled from the spec: the lookup of a name against a chain link, which
    the attribute handler of the instances performs and which is not in this
    file. It walks from the given link toward the root and returns the first
    binding found, or not-found when the chain is exhausted. The result is
    [Some (Some m)] for a binding, [Some None] for not-found and [None] when
    the walk ran out of fuel or met a link that points to no descriptor. *)
Fixpoint lookup_chain (fuel : nat) (h : gmap N PyObject)
    (c : option chainptr) (name : string) : option (option PyMethodDef) :=
  match c with
  | None => Some None
  | Some c =>
      match fuel with
      | O => None
      | S fuel =>
          ch ← chain_at h c;
          match find_method (methods ch) name with
          | Some m => Some (Some m)
          | None => lookup_chain fuel h (link ch) name
          end
      end
  end.

(** The first binding of [name] in a list of tables, searched in order. *)
Fixpoint first_binding (tables : list (list PyMethodDef)) (name : string)
    : option PyMethodDef :=
  match tables with
  | [] => None
  | ml :: rest => match find_method ml name with
                  | Some m => Some m
                  | None => first_binding rest name
                  end
  end.

(** A chain of wrapper types, root first: the address and the method table of
    each. [built_chain h ds] says that the heap holds, at each address, a
    descriptor constructed with that table and with the previous entry as its
    base (no base for the first). *)
Definition base_of (ds : list (N * list PyMethodDef)) (i : nat) : option ptr :=
  match i with
  | O => None
  | S i' => fst <$> ds !! i'
  end.

Definition built_chain `{cfg : PyConfig} (h : gmap N PyObject)
    (ds : list (N * list PyMethodDef)) : Prop :=
  ∀ i a ml, ds !! i = Some (a, ml) →
    ∃ o, h !! a = Some o ∧ constructed (base_of ds i) ml o.

(** ** Programs over the host runtime

    The entry points call into the host runtime and into the instance. Each
    such call is a constructor of [call]; [answer] is the C type of what
    comes back. *)
Inductive call :=
  | PyErr_Occurred
  | PyErr_SetNone (exc : ptr)
  | PyIBase_iter (self : ptr)
  | PyObject_GetAttrString (o : ptr) (name : string)
  | Py_BuildValue_i (v : Z)
  | PyObject_Call (callable : ptr) (args kw : option ptr)
  | PySequence_Length (o : ptr)
  | PySequence_GetItem (o : ptr) (i : Z)
  | PyTuple_New (size : Z)
  | PySeqIter_New (seq : ptr)
  | Py_INCREF (o : ptr)
  | Py_DECREF (o : option ptr)
  | Load_ob_type (o : ptr)
  | Load_enum_method_name (t : ptr).

Definition answer (c : call) : Type :=
  match c with
  | PyErr_Occurred => option ptr
  | PyErr_SetNone _ => unit
  | PyIBase_iter _ => option ptr
  | PyObject_GetAttrString _ _ => option ptr
  | Py_BuildValue_i _ => option ptr
  | PyObject_Call _ _ _ => option ptr
  | PySequence_Length _ => Z
  | PySequence_GetItem _ _ => option ptr
  | PyTuple_New _ => option ptr
  | PySeqIter_New _ => option ptr
  | Py_INCREF _ => unit
  | Py_DECREF _ => unit
  | Load_ob_type _ => ptr
  | Load_enum_method_name _ => string
  end.

(** A program returns, stops at a failed [assert], or makes a call and goes
    on with the answer. *)
Inductive Py (A : Type) : Type :=
  | Ret (a : A)
  | Abort
  | Do (c : call) (k : answer c → Py A).
Arguments Ret {A} a.
Arguments Abort {A}.
Arguments Do {A} c k.

Fixpoint Py_bind {A B} (f : A → Py B) (p : Py A) : Py B :=
  match p with
  | Ret a => f a
  | Abort => Abort
  | Do c k => Do c (λ x, Py_bind f (k x))
  end.

#[global] Instance Py_ret : MRet Py := @Ret.
#[global] Instance Py_mbind : MBind Py := @Py_bind.

Definition perform (c : call) : Py (answer c) := Do c Ret.

(** A pointer used as a condition. *)
Definition nonnull (p : option ptr) : bool :=
  match p with Some _ => true | None => false end.

(** [a || b], where [b] is evaluated only if [a] is false. *)
Definition orelse (a : bool) (b : Py bool) : Py bool :=
  if a then mret true else b.

(** [assert(cond)]: compiled out under [NDEBUG]. *)
Definition C_assert `{cfg : PyConfig} (cond : Py bool) : Py unit :=
  if NDEBUG then mret tt
  else b ← cond; if b : bool then mret tt else Abort.

(** [PyComEnumTypeObject::iter]. *)
Definition PyComEnumTypeObject_iter `{cfg : PyConfig} (self : ptr)
    : Py (option ptr) :=
  C_assert (e ← perform PyErr_Occurred; mret (negb (nonnull e)));;
  rc ← perform (PyIBase_iter self);
  c ← orelse (nonnull rc) (e ← perform PyErr_Occurred; mret (nonnull e));
  if c : bool then mret rc
  else
    perform (Py_INCREF self);;
    mret (Some self).

(** [PyComEnumTypeObject::iternext]. *)
Definition PyComEnumTypeObject_iternext (self : ptr) : Py (option ptr) :=
  ret ← perform (PyIBase_iter self);
  c ← orelse (nonnull ret) (e ← perform PyErr_Occurred; mret (nonnull e));
  if c : bool then mret ret
  else
    method ← perform (PyObject_GetAttrString self "Next");
    match method with
    | None => mret None
    | Some method =>
        args ← perform (Py_BuildValue_i 1);
        result ← perform (PyObject_Call method args None);
        perform (Py_DECREF (Some method));;
        perform (Py_DECREF args);;
        match result with
        | None => mret None
        | Some result =>
            n ← perform (PySequence_Length result);
            ret ← (if n =? 0 then
                     perform (PyErr_SetNone PyExc_StopIteration);;
                     mret None
                   else perform (PySequence_GetItem result 0));
            perform (Py_DECREF (Some result));;
            mret ret
        end
    end.

(** [PyComEnumProviderTypeObject::iter]. *)
Definition PyComEnumProviderTypeObject_iter (self : ptr) : Py (option ptr) :=
  result ← perform (PyIBase_iter self);
  c ← orelse (nonnull result) (e ← perform PyErr_Occurred; mret (nonnull e));
  if c : bool then mret result
  else
    t ← perform (Load_ob_type self);
    name ← perform (Load_enum_method_name t);
    method ← perform (PyObject_GetAttrString self name);
    match method with
    | None => mret None
    | Some method =>
        args ← perform (PyTuple_New 0);
        result ← perform (PyObject_Call method args None);
        perform (Py_DECREF (Some method));;
        perform (Py_DECREF args);;
        if bool_decide (result = Some Py_None) then
          perform (Py_DECREF result);;
          dummy ← perform (PyTuple_New 0);
          match dummy with
          | None => mret None
          | Some dummy =>
              result ← perform (PySeqIter_New dummy);
              perform (Py_DECREF (Some dummy));;
              mret result
          end
        else mret result
    end.

(** ** Running a program

    A runtime answers each call and moves to a new state. A run gives the
    outcome, the final state and the calls made, in order. *)
Inductive outcome (A : Type) :=
  | Returned (a : A)
  | AssertionFailed.
Arguments Returned {A} a.
Arguments AssertionFailed {A}.

Section Run.
Context {W : Type} (handle : ∀ c : call, W → answer c * W).

Fixpoint run {A} (p : Py A) (w : W) : outcome A * W * list call :=
  match p with
  | Ret a => (Returned a, w, [])
  | Abort => (AssertionFailed, w, [])
  | Do c k =>
      let '(x, w1) := handle c w in
      let '(o, w2, tr) := run (k x) w1 in
      (o, w2, c :: tr)
  end.

Definition result_of {A} (p : Py A) (w : W) : outcome A := (run p w).1.1.
Definition state_of {A} (p : Py A) (w : W) : W := (run p w).1.2.
Definition calls_of {A} (p : Py A) (w : W) : list call := (run p w).2.
End Run.

(** The calls that invoke a method of the instance. *)
Definition is_invocation (c : call) : bool :=
  match c with
  | PyObject_GetAttrString _ _ | PyObject_Call _ _ _ => true
  | _ => false
  end.

(** A program without an [assert] that can fail. *)
Fixpoint no_abort {A} (p : Py A) : Prop :=
  match p with
  | Ret _ => True
  | Abort => False
  | Do c k => ∀ x, no_abort (k x)
  end.

(** What the entry points assume of the host, whatever its state looks like:
    [PyErr_Occurred] reads the error indicator and changes nothing, and
    releasing a reference to an object leaves the error indicator alone.
    Nothing is assumed of [Py_DECREF None]: the macro reads the count
    through its argument, so on a NULL pointer the C program has no defined
    behaviour, and no statement below speaks of a run after that call. *)
Class HostRuntime (W : Type) := {
  handle : ∀ c : call, W → answer c * W;
  pending : W → option ptr;
  PyErr_Occurred_reads : ∀ w, handle PyErr_Occurred w = (pending w, w);
  Py_DECREF_pending :
    ∀ (o : ptr) w, pending (handle (Py_DECREF (Some o)) w).2 = pending w
}.

(** ** Reference runtime

    A model of the part of the host runtime, and of the wrapped instances,
    that the entry points talk to. Reference counts are not tracked and no
    object is ever reclaimed: [Py_INCREF] and [Py_DECREF] leave the state as
    it is. *)
Record World := {
  heap : gmap N PyObject;
  curexc_type : option ptr;
  brk : N
}.

Definition set_heap (h : gmap N PyObject) (w : World) : World :=
  {| heap := h; curexc_type := curexc_type w; brk := brk w |}.

(** Setting and clearing the error indicator. *)
Definition raise (exc : ptr) (w : World) : World :=
  {| heap := heap w; curexc_type := Some exc; brk := brk w |}.

Definition PyErr_Clear (w : World) : World :=
  {| heap := heap w; curexc_type := None; brk := brk w |}.

(** A new object, at the next free address. *)
Definition alloc (o : PyObject) (w : World) : ptr * World :=
  (brk w, {| heap := <[brk w := o]> (heap w);
             curexc_type := curexc_type w;
             brk := N.succ (brk w) |}).

Definition store (p : ptr) (o : PyObject) (w : World) : World :=
  set_heap (<[p := o]> (heap w)) w.

(** Enough fuel to walk any chain of descriptors allocated so far. *)
Definition chain_fuel (w : World) : nat := S (N.to_nat (brk w)).

(** Modelled from the spec: the fetch of a wrapped native enumerator. It
    hands out up to [n] items from the cursor and moves the cursor past
    them; at a position that fails, the fetch fails. *)
Fixpoint fetch (n : nat) (cur : list Elt)
    : list ptr * list Elt * option ptr :=
  match n, cur with
  | S n', Elem x :: rest =>
      let '(xs, rest', e) := fetch n' rest in (x :: xs, rest', e)
  | S _, Broken exc :: rest => ([], rest, Some exc)
  | _, _ => ([], cur, None)
  end.

(** The count in the argument tuple of a fetch: [(n,)], or [()] for one. *)
Definition parse_celt (w : World) (args : option ptr) : option Z :=
  a ← args;
  o ← heap w !! a;
  match o with
  | OTuple [] => Some 1
  | OTuple [Some pi] =>
      match heap w !! pi with
      | Some (OInt n) => Some n
      | _ => None
      end
  | _ => None
  end.

Definition call_method (f : PyCFunction) (self : ptr) (args : option ptr)
    (w : World) : option ptr * World :=
  match f with
  | IEnum_Next =>
      match parse_celt w args, heap w !! self with
      | Some n, Some (OIBase tp hook cur) =>
          let '(items, rest, e) := fetch (Z.to_nat n) cur in
          let w1 := store self (OIBase tp hook rest) w in
          match e with
          | Some exc => (None, raise exc w1)
          | None =>
              let '(p, w2) := alloc (OTuple (Some <$> items)) w1 in
              (Some p, w2)
          end
      | _, _ => (None, raise PyExc_TypeError w)
      end
  | Method_Return r => (Some r, w)
  | Method_Raise exc => (None, raise exc w)
  end.

(** Modelled from the spec: the overridable iteration hook of an instance,
    which answers with a value, with an empty result and no error (the
    default), or with a failure. *)
Definition rt_PyIBase_iter (self : ptr) (w : World) : option ptr * World :=
  match heap w !! self with
  | Some (OIBase _ (Hook_value r) _) => (Some r, w)
  | Some (OIBase _ (Hook_error exc) _) => (None, raise exc w)
  | _ => (None, w)
  end.

(** Modelled from the spec: attribute lookup on an instance, which falls
    back to the lookup in the method chain of its type (section 4.2) and
    binds the entry it finds to the instance. *)
Definition rt_PyObject_GetAttrString (o : ptr) (name : string) (w : World)
    : option ptr * World :=
  match heap w !! o with
  | Some (OIBase tp _ _) =>
      match lookup_chain (chain_fuel w) (heap w) (Some (chain_of tp)) name with
      | Some (Some ml) =>
          let '(p, w1) := alloc (OCFunction ml o) w in (Some p, w1)
      | _ => (None, raise PyExc_AttributeError w)
      end
  | _ => (None, raise PyExc_AttributeError w)
  end.

Definition rt_Py_BuildValue_i (v : Z) (w : World) : option ptr * World :=
  let '(pi, w1) := alloc (OInt v) w in
  let '(pt, w2) := alloc (OTuple [Some pi]) w1 in
  (Some pt, w2).

Definition rt_PyObject_Call (callable : ptr) (args kw : option ptr)
    (w : World) : option ptr * World :=
  match heap w !! callable with
  | Some (OCFunction ml self) => call_method (ml_meth ml) self args w
  | _ => (None, raise PyExc_TypeError w)
  end.

Definition rt_PySequence_Length (o : ptr) (w : World) : Z * World :=
  match heap w !! o with
  | Some (OTuple items) => (Z.of_nat (length items), w)
  | _ => (-1, raise PyExc_TypeError w)
  end.

Definition rt_PySequence_GetItem (o : ptr) (i : Z) (w : World)
    : option ptr * World :=
  match heap w !! o with
  | Some (OTuple items) =>
      let i := if i <? 0 then i + Z.of_nat (length items)
               else i in
      if 0 <=? i then
        match items !! Z.to_nat i with
        | Some item => (item, w)
        | None => (None, raise PyExc_IndexError w)
        end
      else (None, raise PyExc_IndexError w)
  | _ => (None, raise PyExc_TypeError w)
  end.

(** A new tuple on every call. The host may hand out one shared object for
    the empty tuple; no statement below depends on which object a tuple
    is. *)
Definition rt_PyTuple_New (size : Z) (w : World) : option ptr * World :=
  if size <? 0 then (None, raise PyExc_SystemError w)
  else
    let '(p, w1) := alloc (OTuple (replicate (Z.to_nat size) None)) w in
    (Some p, w1).

Definition rt_PySeqIter_New (seq : ptr) (w : World) : option ptr * World :=
  match heap w !! seq with
  | Some (OTuple _) =>
      let '(p, w1) := alloc (OSeqIter 0 (Some seq)) w in (Some p, w1)
  | _ => (None, raise PyExc_SystemError w)
  end.

(** The two loads read the heap. Where the C code would read through a
    pointer that is not what the cast says, the model answers with zero and
    with the empty string. *)
Definition rt_Load_ob_type (o : ptr) (w : World) : ptr :=
  match heap w !! o with
  | Some obj => Py_TYPE obj
  | None => 0%N
  end.

Definition rt_Load_enum_method_name (t : ptr) (w : World) : string :=
  match heap w !! t with
  | Some (OComEnumProviderType ty) => enum_method_name ty
  | _ => ""
  end.

Definition runtime (c : call) : World → answer c * World :=
  match c with
  | PyErr_Occurred => λ w, (curexc_type w, w)
  | PyErr_SetNone exc => λ w, (tt, raise exc w)
  | PyIBase_iter self => rt_PyIBase_iter self
  | PyObject_GetAttrString o name => rt_PyObject_GetAttrString o name
  | Py_BuildValue_i v => rt_Py_BuildValue_i v
  | PyObject_Call callable args kw => rt_PyObject_Call callable args kw
  | PySequence_Length o => rt_PySequence_Length o
  | PySequence_GetItem o i => rt_PySequence_GetItem o i
  | PyTuple_New size => rt_PyTuple_New size
  | PySeqIter_New seq => rt_PySeqIter_New seq
  | Py_INCREF _ => λ w, (tt, w)
  | Py_DECREF _ => λ w, (tt, w)
  | Load_ob_type o => λ w, (rt_Load_ob_type o w, w)
  | Load_enum_method_name t => λ w, (rt_Load_enum_method_name t w, w)
  end.

(** Advancing a sequence iterator, as the host's generic dispatch does for
    the object [PySeqIter_New] makes: the next item, or NULL once the index
    is past the end. *)
Definition seqiter_next (it : ptr) (w : World) : option ptr * World :=
  match heap w !! it with
  | Some (OSeqIter idx (Some seq)) =>
      let '(r, w1) := rt_PySequence_GetItem seq idx w in
      match r with
      | Some x => (Some x, store it (OSeqIter (idx + 1) (Some seq)) w1)
      | None =>
          if bool_decide (curexc_type w1 = Some PyExc_IndexError)
             || bool_decide (curexc_type w1 = Some PyExc_StopIteration)
          then (None, store it (OSeqIter idx None) (PyErr_Clear w1))
          else (None, w1)
      end
  | Some (OSeqIter _ None) => (None, w)
  | _ => (None, raise PyExc_TypeError w)
  end.

(** An advance signals exhaustion: NULL, and either no error or the stop
    condition. *)
Definition exhausted (r : option ptr * World) : Prop :=
  r.1 = None ∧
  (curexc_type r.2 = None ∨ curexc_type r.2 = Some PyExc_StopIteration).

(** Every address from [brk] on is free. *)
Definition fresh_above (w : World) : Prop :=
  ∀ p, (brk w ≤ p)%N → heap w !! p = None.

(** [self] is an instance of a type the enumerator constructor built, whose
    own table binds [Next] to the fetch; its hook is silent and its native
    cursor stands before [cur]. *)
Definition enum_instance `{cfg : PyConfig} (w : World) (self : ptr)
    (cur : list Elt) : Prop :=
  ∃ t name pBase typeSize ml thector def,
    heap w !! self = Some (OIBase t Hook_null cur) ∧
    heap w !! t
    = Some (OComType
              (PyComEnumTypeObject_ctor name pBase typeSize ml thector)) ∧
    find_method ml "Next" = Some def ∧
    ml_meth def = IEnum_Next ∧
    fresh_above w.

(** [self] is an instance of a type the provider constructor built with
    method name [M], whose own table binds [M] to [f]; its hook is silent. *)
Definition provider_instance `{cfg : PyConfig} (w : World) (self : ptr)
    (M : string) (f : PyCFunction) : Prop :=
  ∃ t name pBase typeSize ml thector def cur,
    heap w !! self = Some (OIBase t Hook_null cur) ∧
    heap w !! t
    = Some (OComEnumProviderType
              (PyComEnumProviderTypeObject_ctor name pBase typeSize ml
                 thector M)) ∧
    find_method ml M = Some def ∧
    ml_meth def = f ∧
    heap w !! Py_None = Some ONone ∧
    fresh_above w.

(** A consumer that advances [n] times in a row. After each advance it notes
    what came back and which error is pending; with [clear] it then clears
    the error indicator, as the host's loops do when they see the stop
    condition, and without it the indicator is left as the advance set it. *)
Fixpoint advances (clear : bool) (n : nat) (self : ptr) (w : World)
    : list (outcome (option ptr) * option ptr) * World :=
  match n with
  | O => ([], w)
  | S n' =>
      let '(r, w1, _) := run runtime (PyComEnumTypeObject_iternext self) w in
      let '(rs, w2) :=
        advances clear n' self (if clear then PyErr_Clear w1 else w1) in
      ((r, curexc_type w1) :: rs, w2)
  end.

#[global] Instance reference_runtime : HostRuntime World :=
  {| handle := runtime;
     pending := curexc_type;
     PyErr_Occurred_reads := λ w, eq_refl;
     Py_DECREF_pending := λ o w, eq_refl |}.

(** ** Scenarios

    Concrete configurations, descriptors and heaps on which the statements
    below are exercised. *)
Definition debug_build : PyConfig :=
  {| OLD_PYTHON_TYPES := false;
     NDEBUG := false;
     Py_TPFLAGS_DEFAULT := 235;
     Py_TPFLAGS_HAVE_ITER := Z.shiftl 1 7;
     sizeof_PyTypeObject := 192;
     sizeof_PyIBase := 16 |}.

Definition def_Next : PyMethodDef :=
  {| ml_name := "Next"; ml_meth := IEnum_Next |}.

(** Three descriptors in a chain: a root, an enumerator type derived from it
    and a provider type derived from that one. *)
Definition ml_unknown : list PyMethodDef :=
  [ {| ml_name := "QueryInterface"; ml_meth := Method_Return Py_None |} ].
Definition ml_enum : list PyMethodDef :=
  [ def_Next; {| ml_name := "Reset"; ml_meth := Method_Return Py_None |} ].
Definition ml_provider : list PyMethodDef :=
  [ {| ml_name := "QueryInterface";
       ml_meth := Method_Raise PyExc_TypeError |};
    {| ml_name := "GetEnum"; ml_meth := Method_Return Py_None |} ].

Definition three_types : list (N * list PyMethodDef) :=
  [ (100%N, ml_unknown); (101%N, ml_enum); (102%N, ml_provider) ].

Definition three_types_heap : gmap N PyObject :=
  <[ PyInterfaceType_Type := OType (@PyInterfaceType_Type_object debug_build) ]>
  (<[ 100%N := OComType
       (@PyComTypeObject_ctor debug_build "PyIUnknown" None 16 ml_unknown 0%N) ]>
  (<[ 101%N := OComType
        (@PyComEnumTypeObject_ctor debug_build "PyIEnum" (Some 100%N) 24
           ml_enum 0%N) ]>
  (<[ 102%N := OComEnumProviderType
        (@PyComEnumProviderTypeObject_ctor debug_build "PyIProvider"
           (Some 101%N) 24 ml_provider 0%N "GetEnum") ]>
  (<[ 103%N := OIBase 101%N Hook_null [] ]> ∅)))).

(** A heap with one enumerator type, whose table binds the fetch, and one
    instance of it with the given hook and cursor. *)
Definition enum_world (hook : Hook) (cur : list Elt) : World :=
  {| heap :=
       <[ Py_None := ONone ]>
       (<[ 100%N := OComType
             (@PyComEnumTypeObject_ctor debug_build "PyIEnum" None 24
                [def_Next] 0%N) ]>
       (<[ 101%N := OIBase 100%N hook cur ]> ∅));
     curexc_type := None;
     brk := 200%N |}.

(** The three descriptors above, with the provider type replaced by one
    whose named method is [r]; an instance of the root type (which has no
    fetch) at 104, a sentinel object at 105, an instance of the provider
    type at 106, and at 108 an instance of an enumerator type whose [Next]
    is [r] instead of a fetch. *)
Definition provider_world (hook : Hook) (r : PyCFunction) : World :=
  {| heap :=
       <[ Py_None := ONone ]>
       (<[ 102%N := OComEnumProviderType
             (@PyComEnumProviderTypeObject_ctor debug_build "PyIProvider"
                (Some 101%N) 24
                [ {| ml_name := "GetEnum"; ml_meth := r |} ] 0%N "GetEnum") ]>
       (<[ 104%N := OIBase 100%N Hook_null [] ]>
       (<[ 105%N := PyOleEmpty_ctor ]>
       (<[ 106%N := OIBase 102%N hook [] ]>
       (<[ 107%N := OComType
             (@PyComEnumTypeObject_ctor debug_build "PyIOdd" None 24
                [ {| ml_name := "Next"; ml_meth := r |} ] 0%N) ]>
       (<[ 108%N := OIBase 107%N hook [] ]> three_types_heap))))));
     curexc_type := None;
     brk := 200%N |}.

(** ** Proof automation *)

(** Runs the program in the goal as far as the runtime's answers are known
    from the hypotheses. *)
Ltac run_known :=
  repeat (cbn -[handle pending];
    match goal with
    | |- context [handle PyErr_Occurred ?w] =>
        rewrite (PyErr_Occurred_reads w)
    | H : handle ?c ?w = _ |- context [handle ?c ?w] => rewrite H
    | H : pending ?w = _ |- context [pending ?w] => rewrite H
    end);
  cbn -[handle pending].

(** Resolves lookups in a heap that was extended at fresh addresses. *)
Ltac heap_simpl :=
  repeat first [ rewrite lookup_insert_eq
               | rewrite lookup_insert_ne by lia ].

Ltac rt_unfold :=
  unfold rt_PyIBase_iter, rt_PyObject_GetAttrString, rt_Py_BuildValue_i,
    rt_PyObject_Call, rt_PySequence_Length, rt_PySequence_GetItem,
    rt_PyTuple_New, rt_PySeqIter_New, rt_Load_ob_type,
    rt_Load_enum_method_name, call_method, parse_celt, alloc, store,
    set_heap, raise.

(** One pass of symbolic execution on the reference runtime: unfold the
    answer to the next call, resolve the heap lookups and compute lengths
    and counts. *)
Ltac rt_step :=
  cbn -[lookup insert]; rt_unfold; cbn -[lookup insert]; heap_simpl;
  repeat match goal with
  | |- context [Z.of_nat (length ?l)] =>
      let v := eval vm_compute in (Z.of_nat (length l)) in
      change (Z.of_nat (length l)) with v
  | |- context [Z.to_nat ?z] =>
      let v := eval vm_compute in (Z.to_nat z) in
      change (Z.to_nat z) with v
  end.

(** ** The host's iteration protocol

    The two entry points are reached through the slots the constructors
    fill: the host's [PyObject_GetIter] calls [tp_iter] and checks that what
    comes back is an iterator, and [PyIter_Next] calls [tp_iternext] and
    clears the stop condition. They are modelled on the reference runtime
    for the objects of this development. *)

(** [PyType_HasFeature(t, f)]: [(t->tp_flags & f) != 0]. *)
Definition PyType_HasFeature (t : PyTypeObject) (f : Z) : bool :=
  negb (Z.land (tp_flags t) f =? 0).

Section HostProtocol.
Context `{cfg : PyConfig}.

(** The functions of this file a [tp_iter] slot can hold. *)
Definition call_getiterfunc (f : slotfn) (self : ptr)
    : option (Py (option ptr)) :=
  match f with
  | FN_PyComEnumTypeObject_iter => Some (PyComEnumTypeObject_iter self)
  | FN_PyComEnumProviderTypeObject_iter =>
      Some (PyComEnumProviderTypeObject_iter self)
  | _ => None
  end.

(** The function of this file a [tp_iternext] slot can hold. *)
Definition call_iternextfunc (f : slotfn) (self : ptr)
    : option (Py (option ptr)) :=
  match f with
  | FN_PyComEnumTypeObject_iternext => Some (PyComEnumTypeObject_iternext self)
  | _ => None
  end.

(** The type record of the wrapper type at address [tp]. *)
Definition type_at (w : World) (tp : ptr) : option PyTypeObject :=
  heap w !! tp ≫= as_PyTypeObject.

(** [PyIter_Check]: the type has the iterator feature and a non-null
    [tp_iternext]. Sequence iterators are iterators; the other host objects
    of the model and the header-only objects are not. *)
Definition rt_PyIter_Check (o : ptr) (w : World) : bool :=
  match heap w !! o with
  | Some (OSeqIter _ _) => true
  | Some (OIBase tp _ _) =>
      match type_at w tp with
      | Some ty =>
          PyType_HasFeature ty Py_TPFLAGS_HAVE_ITER
          && bool_decide (tp_iternext ty ≠ None)
      | None => false
      end
  | _ => false
  end.

(** [PyObject_GetIter]. On an instance of a wrapper type it takes [tp_iter]
    if the type has the iterator feature; without one the object is not
    iterable (the template has no sequence slots); with one it calls it and
    turns a result that is no iterator into a [TypeError]. *)
Definition rt_PyObject_GetIter (o : ptr) (w : World)
    : outcome (option ptr) * World :=
  match heap w !! o with
  | Some (OIBase tp _ _) =>
      match type_at w tp with
      | Some ty =>
          let f := if PyType_HasFeature ty Py_TPFLAGS_HAVE_ITER
                   then tp_iter ty else None in
          match f with
          | None => (Returned None, raise PyExc_TypeError w)
          | Some f =>
              match call_getiterfunc f o with
              | None => (Returned None, raise PyExc_TypeError w)
              | Some prog =>
                  let '(r, w1, _) := run runtime prog w in
                  match r with
                  | Returned (Some res) =>
                      if rt_PyIter_Check res w1
                      then (Returned (Some res), w1)
                      else (Returned None, raise PyExc_TypeError w1)
                  | _ => (r, w1)
                  end
              end
          end
      | None => (Returned None, raise PyExc_TypeError w)
      end
  | Some (OSeqIter _ _) => (Returned (Some o), w)
  | Some (OTuple _) =>
      let '(p, w1) := alloc (OSeqIter 0 (Some o)) w in (Returned (Some p), w1)
  | _ => (Returned None, raise PyExc_TypeError w)
  end.

(** [PyIter_Next]: one call of [tp_iternext]; a NULL that comes with the
    stop condition has the condition cleared. *)
Definition rt_PyIter_Next (it : ptr) (w : World)
    : outcome (option ptr) * World :=
  let '(r, w1) :=
    match heap w !! it with
    | Some (OSeqIter _ _) =>
        let '(x, w1) := seqiter_next it w in (Returned x, w1)
    | Some (OIBase tp _ _) =>
        match type_at w tp with
        | Some ty =>
            match tp_iternext ty with
            | Some f =>
                match call_iternextfunc f it with
                | Some prog =>
                    let '(r, w1, _) := run runtime prog w in (r, w1)
                | None => (Returned None, raise PyExc_TypeError w)
                end
            | None => (Returned None, raise PyExc_TypeError w)
            end
        | None => (Returned None, raise PyExc_TypeError w)
        end
    | _ => (Returned None, raise PyExc_TypeError w)
    end in
  match r with
  | Returned None =>
      if bool_decide (curexc_type w1 = Some PyExc_StopIteration)
      then (r, PyErr_Clear w1) else (r, w1)
  | _ => (r, w1)
  end.

(** A loop over an iterator: it takes items with [PyIter_Next] until NULL
    comes back, and gives the items taken. The error indicator of the final
    state tells whether the loop ended by exhaustion or by a failure. The
    result is [None] when the fuel runs out or an assertion stops a call. *)
Fixpoint collect (fuel : nat) (it : ptr) (w : World)
    : option (list ptr) * World :=
  match fuel with
  | O => (None, w)
  | S fuel =>
      match rt_PyIter_Next it w with
      | (Returned (Some x), w1) =>
          let '(r, w2) := collect fuel it w1 in (cons x <$> r, w2)
      | (Returned None, w1) => (Some [], w1)
      | (AssertionFailed, w1) => (None, w1)
      end
  end.
End HostProtocol.

(** [self] is an instance of the type at [t], which the plain descriptor
    constructor built. *)
Definition plain_instance `{cfg : PyConfig} (w : World) (self : ptr) : Prop :=
  ∃ t name pBase typeSize ml thector hook cur,
    heap w !! self = Some (OIBase t hook cur) ∧
    heap w !! t
    = Some (OComType (PyComTypeObject_ctor name pBase typeSize ml thector)).

(** The second state has every object of the first, and the addresses it
    counts as free are free. *)
Definition grows (w w' : World) : Prop :=
  heap w ⊆ heap w' ∧ fresh_above w'.

(** ** The menu group widths

    [OLEMENUGROUPWIDTHS] holds [LONG width[6]]. The two conversions rest on
    the host's [PyArg_ParseTuple] and [Py_BuildValue] for integers, which
    are modelled on the reference runtime. *)
Definition PyExc_OverflowError : ptr := 17%N.

Record OLEMENUGROUPWIDTHS := {
  width : list Z
}.

Definition INT_MIN : Z := - 2 ^ 31.
Definition INT_MAX : Z := 2 ^ 31 - 1.

(** The conversion of one argument for the format unit [i]: the value of an
    integer object that fits a C [int]. *)
Definition convert_i (w : World) (arg : option ptr) : Z + N :=
  match arg ≫= (λ a, heap w !! a) with
  | Some (OInt v) =>
      if (INT_MAX <? v) || (v <? INT_MIN) then inr PyExc_OverflowError
      else inl v
  | _ => inr PyExc_TypeError
  end.

(** The arguments are converted in order, each stored through its pointer
    as soon as it is converted; the first that fails stops the parse. *)
Fixpoint parse_ints (w : World) (args : list (option ptr)) (i : nat)
    (out : list Z) : list Z * option ptr :=
  match args with
  | [] => (out, None)
  | a :: rest =>
      match convert_i w a with
      | inl v => parse_ints w rest (S i) (<[i := v]> out)
      | inr exc => (out, Some exc)
      end
  end.

(** [PyArg_ParseTuple(args, "i...i", &out[0], ..., &out[n-1])] with [n]
    format units: the argument must be a tuple, of exactly [n] items. *)
Definition rt_PyArg_ParseTuple_ints (n : nat) (args : ptr) (out : list Z)
    (w : World) : bool * list Z * World :=
  match heap w !! args with
  | Some (OTuple items) =>
      if bool_decide (length items = n) then
        match parse_ints w items 0 out with
        | (out', None) => (true, out', w)
        | (out', Some exc) => (false, out', raise exc w)
        end
      else (false, out, raise PyExc_TypeError w)
  | _ => (false, out, raise PyExc_SystemError w)
  end.

(** New integer objects for the given values. *)
Fixpoint alloc_ints (vs : list Z) (w : World) : list ptr * World :=
  match vs with
  | [] => ([], w)
  | v :: vs' =>
      let '(p, w1) := alloc (OInt v) w in
      let '(ps, w2) := alloc_ints vs' w1 in
      (p :: ps, w2)
  end.

(** [Py_BuildValue("(i...i)", v0, ..., vn)]. *)
Definition rt_Py_BuildValue_ints (vs : list Z) (w : World)
    : option ptr * World :=
  let '(ps, w1) := alloc_ints vs w in
  let '(p, w2) := alloc (OTuple (Some <$> ps)) w1 in
  (Some p, w2).

(** [pWidths->width[i]]. *)
Definition width_at (s : OLEMENUGROUPWIDTHS) (i : nat) : Z :=
  nth i (width s) 0.

(** [PyObject_AsOLEMENUGROUPWIDTHS]: the result, the structure behind
    [pWidths] afterwards, and the state. *)
Definition PyObject_AsOLEMENUGROUPWIDTHS (oblpMenuWidths : ptr)
    (pWidths : OLEMENUGROUPWIDTHS) (w : World)
    : bool * OLEMENUGROUPWIDTHS * World :=
  let '(ok, out, w1) :=
    rt_PyArg_ParseTuple_ints 6 oblpMenuWidths (width pWidths) w in
  (ok, {| width := out |}, w1).

(** [PyObject_FromOLEMENUGROUPWIDTHS]; [pWidths] is [None] for NULL. *)
Definition PyObject_FromOLEMENUGROUPWIDTHS
    (pWidths : option OLEMENUGROUPWIDTHS) (w : World) : option ptr * World :=
  match pWidths with
  | None =>
      let '(_, w1) := runtime (Py_INCREF Py_None) w in
      (Some Py_None, w1)
  | Some s =>
      rt_Py_BuildValue_ints
        [ width_at s 0; width_at s 1; width_at s 2;
          width_at s 3; width_at s 4; width_at s 5 ] w
  end.

(** The structure holds six values, each a 32-bit [LONG]. *)
Definition well_formed_widths (s : OLEMENUGROUPWIDTHS) : Prop :=
  length (width s) = 6%nat ∧
  Forall (λ v, INT_MIN ≤ v ≤ INT_MAX) (width s).

(** The calls that release or take a reference. *)
Definition is_DECREF (c : call) : bool :=
  match c with Py_DECREF _ => true | _ => false end.

Definition is_INCREF (c : call) : bool :=
  match c with Py_INCREF _ => true | _ => false end.

(** ** More scenarios *)

Definition PyExc_MemoryError : ptr := 18%N.

Definition release_build : PyConfig :=
  {| OLD_PYTHON_TYPES := false;
     NDEBUG := true;
     Py_TPFLAGS_DEFAULT := 235;
     Py_TPFLAGS_HAVE_ITER := Z.shiftl 1 7;
     sizeof_PyTypeObject := 192;
     sizeof_PyIBase := 16 |}.

(** The reference runtime with no memory left for tuples: the two calls
    that allocate an argument tuple fail. *)
Definition handle_no_memory (c : call) : World → answer c * World :=
  match c as c0 return World → answer c0 * World with
  | Py_BuildValue_i _ => λ w, (None, raise PyExc_MemoryError w)
  | PyTuple_New _ => λ w, (None, raise PyExc_MemoryError w)
  | c0 => runtime c0
  end.

Definition no_memory_runtime : HostRuntime World :=
  {| handle := handle_no_memory;
     pending := curexc_type;
     PyErr_Occurred_reads := λ w, eq_refl;
     Py_DECREF_pending := λ o w, eq_refl |}.

(** A provider instance at 106 whose [GetEnum] answers with the enumerator
    instance at 101, which wraps a native cursor. *)
Definition handover_world (cur : list Elt) : World :=
  {| heap :=
       <[ Py_None := ONone ]>
       (<[ 100%N := OComType
             (@PyComEnumTypeObject_ctor debug_build "PyIEnum" None 24
                [def_Next] 0%N) ]>
       (<[ 101%N := OIBase 100%N Hook_null cur ]>
       (<[ 102%N := OComEnumProviderType
             (@PyComEnumProviderTypeObject_ctor debug_build "PyIProvider"
                None 24
                [ {| ml_name := "GetEnum";
                     ml_meth := Method_Return 101%N |} ] 0%N "GetEnum") ]>
       (<[ 106%N := OIBase 102%N Hook_null [] ]> ∅))));
     curexc_type := None;
     brk := 200%N |}.

(** A provider instance at 106 whose type names a method that no table
    binds. *)
Definition unbound_provider_world : World :=
  {| heap :=
       <[ Py_None := ONone ]>
       (<[ 102%N := OComEnumProviderType
             (@PyComEnumProviderTypeObject_ctor debug_build "PyIProvider"
                None 24 [] 0%N "GetEnum") ]>
       (<[ 106%N := OIBase 102%N Hook_null [] ]> ∅));
     curexc_type := None;
     brk := 200%N |}.

(** Integer objects 1 to 6 at 110 to 115, a tuple of five of them at 120 and
    a tuple of six items with the None object in the third place at 121. *)
Definition widths_world : World :=
  {| heap :=
       <[ Py_None := ONone ]>
       (<[ 110%N := OInt 1 ]> (<[ 111%N := OInt 2 ]> (<[ 112%N := OInt 3 ]>
       (<[ 113%N := OInt 4 ]> (<[ 114%N := OInt 5 ]> (<[ 115%N := OInt 6 ]>
       (<[ 120%N := OTuple [Some 110%N; Some 111%N; Some 112%N;
                            Some 113%N; Some 114%N] ]>
       (<[ 121%N := OTuple [Some 110%N; Some 111%N; Some Py_None;
                            Some 113%N; Some 114%N; Some 115%N] ]>
        ∅))))))));
     curexc_type := None;
     brk := 200%N |}.


(** The reference runtime over a native enumerator that starts over: a
    fetch made with the cursor at its end answers with no items, as before,
    and leaves the cursor before [items] again. The wrapped enumerators are
    foreign objects; nothing in this file keeps one from behaving so. *)
Definition handle_rewinding (items : list Elt) (c : call)
    : World → answer c * World :=
  match c as c0 return World → answer c0 * World with
  | PyObject_Call callable args kw => λ w,
      let '(r, w1) := rt_PyObject_Call callable args kw w in
      match heap w !! callable with
      | Some (OCFunction _ self) =>
          match heap w !! self with
          | Some (OIBase tp hook []) =>
              (r, store self (OIBase tp hook items) w1)
          | _ => (r, w1)
          end
      | _ => (r, w1)
      end
  | c0 => runtime c0
  end.

Definition rewinding_runtime (items : list Elt) : HostRuntime World :=
  {| handle := handle_rewinding items;
     pending := curexc_type;
     PyErr_Occurred_reads := λ w, eq_refl;
     Py_DECREF_pending := λ o w, eq_refl |}.

(** Three descriptors in a chain in which the middle one overrides a method
    of the root: [Reset] is bound at the root and again at the enumerator
    type derived from it, and the provider type derived from that one binds
    neither [Reset] nor [Next]. *)
Definition def_Reset_root : PyMethodDef :=
  {| ml_name := "Reset"; ml_meth := Method_Return Py_None |}.
Definition def_Reset_enum : PyMethodDef :=
  {| ml_name := "Reset"; ml_meth := Method_Raise PyExc_TypeError |}.
Definition ml_root_reset : list PyMethodDef :=
  [ {| ml_name := "QueryInterface"; ml_meth := Method_Return Py_None |};
    def_Reset_root ].
Definition ml_enum_reset : list PyMethodDef := [ def_Next; def_Reset_enum ].
Definition ml_leaf : list PyMethodDef :=
  [ {| ml_name := "GetEnum"; ml_meth := Method_Return Py_None |} ].

Definition override_types : list (N * list PyMethodDef) :=
  [ (100%N, ml_root_reset); (101%N, ml_enum_reset); (102%N, ml_leaf) ].

Definition override_types_heap : gmap N PyObject :=
  <[ 100%N := OComType
       (@PyComTypeObject_ctor debug_build "PyIUnknown" None 16
          ml_root_reset 0%N) ]>
  (<[ 101%N := OComType
        (@PyComEnumTypeObject_ctor debug_build "PyIEnum" (Some 100%N) 24
           ml_enum_reset 0%N) ]>
  (<[ 102%N := OComEnumProviderType
        (@PyComEnumProviderTypeObject_ctor debug_build "PyIProvider"
           (Some 101%N) 24 ml_leaf 0%N "GetEnum") ]> ∅)).
(** ** Descriptors: what the constructors leave behind *)

Section DescriptorFacts.
Context `{cfg : PyConfig}.

Lemma constructed_chain pBase methodList o :
  constructed pBase methodList o →
  ∃ t, as_PyComTypeObject o = Some t ∧
       chain t = {| methods := methodList; link := chain_of <$> pBase |} ∧
       baseType t = pBase.
Proof.
  destruct 1; eexists; (split; [reflexivity|]);
    destruct pBase; split; reflexivity.
Qed.

Lemma constructed_marker pBase methodList o :
  constructed pBase methodList o →
  ∃ t, as_PyTypeObject o = Some t ∧
       ob_type t = (if OLD_PYTHON_TYPES then PyInterfaceType_Type
                    else PyType_Type) ∧
       tp_base t = (if OLD_PYTHON_TYPES then None
                    else Some PyInterfaceType_Type).
Proof.
  destruct 1; eexists; (split; [reflexivity|]); split; reflexivity.
Qed.

Lemma Py_TYPE_as_PyTypeObject o t :
  as_PyTypeObject o = Some t → Py_TYPE o = ob_type t.
Proof. destruct o; simpl; congruence. Qed.

(** C6: the enumerator constructor installs both iteration entry points and
    sets the iterable capability bit in the flags; the provider constructor
    installs only the begin-iteration entry point, sets the same bit and
    leaves the advance-iteration slot null. *)
Theorem enum_constructors_install_iteration
    (name : string) (pBase : option ptr) (typeSize : Z)
    (methodList : list PyMethodDef) (thector : N) (penum_method_name : string) :
  let e := type (PyComEnumTypeObject_ctor name pBase typeSize methodList
                   thector) in
  let p := type (comtype (PyComEnumProviderTypeObject_ctor name pBase typeSize
                            methodList thector penum_method_name)) in
  (tp_iter e = Some FN_PyComEnumTypeObject_iter ∧
   tp_iternext e = Some FN_PyComEnumTypeObject_iternext ∧
   Z.land (tp_flags e) Py_TPFLAGS_HAVE_ITER = Py_TPFLAGS_HAVE_ITER) ∧
  (tp_iter p = Some FN_PyComEnumProviderTypeObject_iter ∧
   tp_iternext p = None ∧
   Z.land (tp_flags p) Py_TPFLAGS_HAVE_ITER = Py_TPFLAGS_HAVE_ITER) ∧
  tp_flags p = tp_flags e.
Proof.
  simpl. repeat split; apply Z.land_diag.
Qed.

(** The object that serves as the marker is itself not classified as a
    wrapper type. *)
Lemma marker_type_is_not_interface_type (h : gmap N PyObject) :
  h !! PyInterfaceType_Type = Some (OType PyInterfaceType_Type_object) →
  is_interface_type h PyInterfaceType_Type = Some false.
Proof.
  intros Hm. unfold is_interface_type. rewrite Hm. simpl.
  destruct OLD_PYTHON_TYPES; reflexivity.
Qed.

(** C5, as the code has it: [is_interface_type] answers true on the
    descriptor itself (the type object a constructor of this file built),
    by the marker the template put there. On an instance whose type is that
    descriptor, and on a host value (None, an integer, a tuple, a sequence
    iterator, a bound method), it answers false. It answers true only on
    an object that carries the marker: the interface-type as its base, or,
    with the old type layout, as its type. *)
Theorem is_interface_type_classifies_descriptors
    (h : gmap N PyObject) (t : ptr) (pBase : option ptr)
    (methodList : list PyMethodDef) (d : PyObject) :
  h !! t = Some d →
  constructed pBase methodList d →
  t ≠ PyType_Type →
  t ≠ PyInterfaceType_Type →
  is_interface_type h t = Some true ∧
  (∀ ob o, h !! ob = Some o → Py_TYPE o = t →
     is_interface_type h ob = Some false) ∧
  (∀ ob o, h !! ob = Some o →
     match o with
     | ONone | OInt _ | OTuple _ | OSeqIter _ _ | OCFunction _ _ => True
     | _ => False
     end →
     is_interface_type h ob = Some false) ∧
  (∀ ob o, h !! ob = Some o →
     is_interface_type h ob = Some true →
     if OLD_PYTHON_TYPES then Py_TYPE o = PyInterfaceType_Type
     else Py_TYPE o = PyType_Type ∧
          ∃ ty, as_PyTypeObject o = Some ty ∧
                tp_base ty = Some PyInterfaceType_Type).
Proof.
  intros Ht Hd Hty Hit.
  destruct (constructed_marker _ _ _ Hd) as (ty & Has & Hob & Hbase).
  pose proof (Py_TYPE_as_PyTypeObject _ _ Has) as HT.
  unfold is_interface_type. split; [|split; [|split]].
  - rewrite Ht. simpl. rewrite HT, Hob. destruct OLD_PYTHON_TYPES.
    + by rewrite bool_decide_eq_true_2.
    + rewrite bool_decide_eq_true_2 by done. rewrite Has. simpl.
      by rewrite Hbase, bool_decide_eq_true_2.
  - intros ob o Ho Hinst. rewrite Ho. simpl. rewrite Hinst.
    destruct OLD_PYTHON_TYPES; by rewrite bool_decide_eq_false_2.
  - intros ob o Ho Hnative. rewrite Ho. simpl.
    destruct o; try done; simpl; destruct OLD_PYTHON_TYPES; reflexivity.
  - intros ob o Ho. rewrite Ho. simpl. destruct OLD_PYTHON_TYPES.
    + intros [= Hm%bool_decide_eq_true_1]. done.
    + case_bool_decide as Hob'; [|done].
      destruct (as_PyTypeObject o) as [ty'|]; [|done]. simpl.
      intros [= Hm%bool_decide_eq_true_1]. split; [done|]. by exists ty'.
Qed.
End DescriptorFacts.

(** ** Method chains: lookup *)

Section ChainFacts.
Context `{cfg : PyConfig}.

Lemma base_of_chain (ds : list (N * list PyMethodDef)) j a ml :
  ds !! S j = Some (a, ml) →
  ∃ a' ml', ds !! j = Some (a', ml') ∧ base_of ds (S j) = Some a'.
Proof.
  intros H. apply lookup_lt_Some in H.
  destruct (ds !! j) as [[a' ml']|] eqn:E.
  - exists a', ml'. simpl. by rewrite E.
  - apply lookup_ge_None in E. lia.
Qed.

(** One step of the walk, at a descriptor a constructor built. *)
Lemma lookup_chain_step (h : gmap N PyObject) a pBase ml o fuel name :
  h !! a = Some o →
  constructed pBase ml o →
  lookup_chain (S fuel) h (Some (chain_of a)) name
  = match find_method ml name with
    | Some m => Some (Some m)
    | None => lookup_chain fuel h (chain_of <$> pBase) name
    end.
Proof.
  intros Ho Hc. destruct (constructed_chain _ _ _ Hc) as (t & Ht & Hch & _).
  simpl. rewrite Ho. simpl. rewrite Ht. simpl. by rewrite Hch.
Qed.

(** From the descriptor at position [j], the walk sees the tables
    [j], [j-1], ..., [0] in that order, and [j+1] steps of fuel are enough. *)
Lemma lookup_chain_built (h : gmap N PyObject) ds name :
  built_chain h ds →
  ∀ j a ml (fuel : nat), ds !! j = Some (a, ml) → (j < fuel)%nat →
    lookup_chain fuel h (Some (chain_of a)) name
    = Some (first_binding (rev (take (S j) (snd <$> ds))) name).
Proof.
  intros Hb j. induction j as [|j IH]; intros a ml fuel Hj Hfuel.
  - destruct fuel as [|fuel]; [lia|].
    destruct (Hb _ _ _ Hj) as (o & Ho & Hc).
    rewrite (lookup_chain_step _ _ _ _ _ _ _ Ho Hc).
    rewrite (take_S_r _ _ ml) by (by rewrite list_lookup_fmap, Hj).
    simpl. destruct (find_method ml name); [done|]. by destruct fuel.
  - destruct fuel as [|fuel]; [lia|].
    destruct (Hb _ _ _ Hj) as (o & Ho & Hc).
    rewrite (lookup_chain_step _ _ _ _ _ _ _ Ho Hc).
    rewrite (take_S_r _ _ ml) by (by rewrite list_lookup_fmap, Hj).
    rewrite rev_unit. simpl first_binding.
    destruct (find_method ml name); [done|].
    destruct (base_of_chain _ _ _ _ Hj) as (a' & ml' & Hj' & Hbase).
    rewrite Hbase. simpl fmap.
    apply (IH a' ml'); [done | lia].
Qed.

Lemma first_binding_only (tables : list (list PyMethodDef)) name k mlk m :
  tables !! k = Some mlk →
  find_method mlk name = Some m →
  (∀ i ml, i ≠ k → tables !! i = Some ml → find_method ml name = None) →
  ∀ j, (j < length tables)%nat →
    first_binding (rev (take (S j) tables)) name
    = if decide (k ≤ j)%nat then Some m else None.
Proof.
  intros Hk Hm Hothers. induction j as [|j IH]; intros Hj;
    destruct (lookup_lt_is_Some_2 tables _ Hj) as [ml Hml];
    rewrite (take_S_r _ _ _ Hml), rev_unit; simpl.
  - destruct (decide (k = 0)%nat) as [->|Hne].
    + replace ml with mlk by congruence. by rewrite Hm.
    + rewrite (Hothers 0%nat ml) by done.
      destruct (decide (k ≤ 0)%nat); [lia | done].
  - destruct (decide (k = S j)) as [->|Hne].
    + replace ml with mlk by congruence. rewrite Hm.
      destruct (decide (S j ≤ S j)%nat); [done | lia].
    + rewrite (Hothers (S j) ml) by done. rewrite IH by lia.
      destruct (decide (k ≤ j)%nat), (decide (k ≤ S j)%nat); done || lia.
Qed.

(** The nearest binding of a name, at or below the table [j], is the first
    one met from [j] downward. *)
Lemma first_binding_nearest (tables : list (list PyMethodDef)) name i mli m :
  tables !! i = Some mli →
  find_method mli name = Some m →
  ∀ j, (i ≤ j)%nat → (j < length tables)%nat →
    (∀ l ml, (i < l ≤ j)%nat → tables !! l = Some ml →
       find_method ml name = None) →
    first_binding (rev (take (S j) tables)) name = Some m.
Proof.
  intros Hi Hm. induction j as [|j IH]; intros Hij Hj Hbetween;
    destruct (lookup_lt_is_Some_2 tables _ Hj) as [ml Hml];
    rewrite (take_S_r _ _ _ Hml), rev_unit; simpl.
  - replace i with 0%nat in Hi by lia.
    replace ml with mli by congruence. by rewrite Hm.
  - destruct (decide (i = S j)) as [->|Hne].
    + replace ml with mli by congruence. by rewrite Hm.
    + rewrite (Hbetween (S j) ml) by (done || lia).
      apply IH; [lia | lia |].
      intros l ml' Hl. apply Hbetween. lia.
Qed.

(** C7: in a chain of descriptors T0 (root) to Tn built by the constructors,
    a lookup that starts at Tj searches the tables of Tj, T(j-1), ..., T0 in
    this order and returns the first binding of the name that it meets, or
    not-found when none of them binds it; j+1 steps are enough. Hence a name
    bound only at Tk is found from every Tj with j >= k and is not found from
    any Tj with j < k; and a binding at Ti is the one returned from every Tj
    with j >= i between which and Ti no table binds the name, whatever the
    tables below Ti bind: the most derived binding at or above the root
    shadows the bindings of its bases, from whichever descendant the lookup
    starts. *)
Theorem chain_lookup_scoping_and_shadowing
    (h : gmap N PyObject) (ds : list (N * list PyMethodDef)) (name : string) :
  built_chain h ds →
  (∀ j aj mlj (fuel : nat), ds !! j = Some (aj, mlj) → (j < fuel)%nat →
     lookup_chain fuel h (Some (chain_of aj)) name
     = Some (first_binding (rev (take (S j) (snd <$> ds))) name)) ∧
  (∀ k ak mlk m,
     ds !! k = Some (ak, mlk) →
     find_method mlk name = Some m →
     (∀ i a ml, i ≠ k → ds !! i = Some (a, ml) → find_method ml name = None) →
     ∀ j aj mlj (fuel : nat), ds !! j = Some (aj, mlj) → (j < fuel)%nat →
       lookup_chain fuel h (Some (chain_of aj)) name
       = Some (if decide (k ≤ j)%nat then Some m else None)) ∧
  (∀ i ai mli m j aj mlj (fuel : nat),
     ds !! i = Some (ai, mli) →
     find_method mli name = Some m →
     ds !! j = Some (aj, mlj) →
     (i ≤ j)%nat →
     (∀ l a ml, (i < l ≤ j)%nat → ds !! l = Some (a, ml) →
        find_method ml name = None) →
     (j < fuel)%nat →
     lookup_chain fuel h (Some (chain_of aj)) name = Some (Some m)).
Proof.
  intros Hb. split; [|split].
  - intros j aj mlj fuel Hj Hfuel.
    apply (lookup_chain_built h ds name Hb j aj mlj fuel Hj Hfuel).
  - intros k ak mlk m Hk Hm Hothers j aj mlj fuel Hj Hfuel.
    rewrite (lookup_chain_built h ds name Hb j aj mlj fuel Hj Hfuel).
    f_equal. apply (first_binding_only _ name k mlk m).
    + by rewrite list_lookup_fmap, Hk.
    + done.
    + intros i ml Hi Hl. rewrite list_lookup_fmap in Hl.
      destruct (ds !! i) as [[a ml']|] eqn:E; simplify_eq/=.
      by eapply Hothers.
    + rewrite length_fmap. by apply lookup_lt_Some in Hj.
  - intros i ai mli m j aj mlj fuel Hi Hm Hj Hij Hbetween Hfuel.
    rewrite (lookup_chain_built h ds name Hb j aj mlj fuel Hj Hfuel).
    f_equal. apply (first_binding_nearest _ name i mli m).
    + by rewrite list_lookup_fmap, Hi.
    + done.
    + done.
    + rewrite length_fmap. by apply lookup_lt_Some in Hj.
    + intros l ml Hl Hlk. rewrite list_lookup_fmap in Hlk.
      destruct (ds !! l) as [[a ml']|] eqn:E; simplify_eq/=.
      by eapply Hbetween.
Qed.
End ChainFacts.

(** C5 as the specification words it, for instances, does not hold: the
    instance at address 103 was created for the descriptor at 101, which the
    enumerator constructor built, and [is_interface_type] answers false on
    it. *)
Lemma instance_is_not_interface_type :
  three_types_heap !! 103%N = Some (OIBase 101%N Hook_null []) ∧
  three_types_heap !! 101%N
  = Some (OComType (@PyComEnumTypeObject_ctor debug_build "PyIEnum"
                      (Some 100%N) 24 ml_enum 0%N)) ∧
  @is_interface_type debug_build three_types_heap 103%N = Some false ∧
  @is_interface_type debug_build three_types_heap 103%N ≠ Some true.
Proof. repeat split; done. Qed.

Lemma is_interface_type_classifies_descriptors_witness :
  @is_interface_type debug_build three_types_heap 101%N = Some true ∧
  (∀ ob o, three_types_heap !! ob = Some o → Py_TYPE o = 101%N →
     @is_interface_type debug_build three_types_heap ob = Some false) ∧
  (∀ ob o, three_types_heap !! ob = Some o →
     match o with
     | ONone | OInt _ | OTuple _ | OSeqIter _ _ | OCFunction _ _ => True
     | _ => False
     end →
     @is_interface_type debug_build three_types_heap ob = Some false) ∧
  (∀ ob o, three_types_heap !! ob = Some o →
     @is_interface_type debug_build three_types_heap ob = Some true →
     Py_TYPE o = PyType_Type ∧
     ∃ ty, as_PyTypeObject o = Some ty ∧
           tp_base ty = Some PyInterfaceType_Type).
Proof.
  apply (@is_interface_type_classifies_descriptors debug_build
           three_types_heap 101%N (Some 100%N) ml_enum
           (OComType (@PyComEnumTypeObject_ctor debug_build "PyIEnum"
                        (Some 100%N) 24 ml_enum 0%N))).
  - reflexivity.
  - apply constructed_enum.
  - discriminate.
  - discriminate.
Defined.

Lemma three_types_built : @built_chain debug_build three_types_heap three_types.
Proof.
  intros [|[|[|i]]] a ml Hi; simplify_eq/=; eexists; (split; [reflexivity|]).
  - apply (constructed_com (cfg:=debug_build)).
  - apply (constructed_enum (cfg:=debug_build)).
  - apply (constructed_provider (cfg:=debug_build)).
Defined.

Lemma override_types_built :
  @built_chain debug_build override_types_heap override_types.
Proof.
  intros [|[|[|i]]] a ml Hi; simplify_eq/=; eexists; (split; [reflexivity|]).
  - apply (constructed_com (cfg:=debug_build)).
  - apply (constructed_enum (cfg:=debug_build)).
  - apply (constructed_provider (cfg:=debug_build)).
Defined.

Lemma chain_lookup_scoping_and_shadowing_witness :
  (lookup_chain 3 three_types_heap (Some (chain_of 100%N)) "Next" = Some None ∧
   lookup_chain 3 three_types_heap (Some (chain_of 101%N)) "Next"
   = Some (Some def_Next) ∧
   lookup_chain 3 three_types_heap (Some (chain_of 102%N)) "Next"
   = Some (Some def_Next)) ∧
  (lookup_chain 3 three_types_heap (Some (chain_of 102%N)) "QueryInterface"
   = Some (Some {| ml_name := "QueryInterface";
                   ml_meth := Method_Raise PyExc_TypeError |})) ∧
  (lookup_chain 3 override_types_heap (Some (chain_of 100%N)) "Reset"
   = Some (Some def_Reset_root) ∧
   lookup_chain 3 override_types_heap (Some (chain_of 101%N)) "Reset"
   = Some (Some def_Reset_enum) ∧
   lookup_chain 3 override_types_heap (Some (chain_of 102%N)) "Reset"
   = Some (Some def_Reset_enum)) ∧
  (lookup_chain 3 override_types_heap (Some (chain_of 102%N)) "Clone"
   = Some None).
Proof.
  destruct (@chain_lookup_scoping_and_shadowing debug_build three_types_heap
              three_types "Next" three_types_built) as (_ & Hscope & _).
  destruct (@chain_lookup_scoping_and_shadowing debug_build three_types_heap
              three_types "QueryInterface" three_types_built)
    as (_ & _ & Hshadow).
  destruct (@chain_lookup_scoping_and_shadowing debug_build
              override_types_heap override_types "Reset" override_types_built)
    as (_ & _ & Hnearest).
  destruct (@chain_lookup_scoping_and_shadowing debug_build
              override_types_heap override_types "Clone" override_types_built)
    as (Hfirst & _ & _).
  assert (Honly : ∀ (i : nat) a ml, i ≠ 1%nat →
            three_types !! i = Some (a, ml) → find_method ml "Next" = None).
  { intros [|[|[|i]]] a ml Hi Hl; simplify_eq/=; reflexivity. }
  assert (Hnone : ∀ (i j : nat) (l : nat) a ml, (i < l ≤ j)%nat →
            (i = j ∨ (i = 1 ∧ j = 2))%nat →
            override_types !! l = Some (a, ml) →
            find_method ml "Reset" = None).
  { intros i j [|[|[|l]]] a ml Hl Hij Hlk; simplify_eq/=;
      (reflexivity || lia). }
  split; [split; [|split]|split; [|split; [split; [|split]|]]].
  - apply (Hscope 1%nat 101%N ml_enum def_Next eq_refl eq_refl Honly
             0%nat 100%N ml_unknown 3%nat eq_refl). lia.
  - apply (Hscope 1%nat 101%N ml_enum def_Next eq_refl eq_refl Honly
             1%nat 101%N ml_enum 3%nat eq_refl). lia.
  - apply (Hscope 1%nat 101%N ml_enum def_Next eq_refl eq_refl Honly
             2%nat 102%N ml_provider 3%nat eq_refl). lia.
  - apply (Hshadow 2%nat 102%N ml_provider _ 2%nat 102%N ml_provider 3%nat
             eq_refl eq_refl eq_refl); [lia | | lia].
    intros l a ml Hl. lia.
  - apply (Hnearest 0%nat 100%N ml_root_reset _ 0%nat 100%N ml_root_reset
             3%nat eq_refl eq_refl eq_refl); [lia | | lia].
    intros l a ml Hl. lia.
  - apply (Hnearest 1%nat 101%N ml_enum_reset _ 1%nat 101%N ml_enum_reset
             3%nat eq_refl eq_refl eq_refl); [lia | | lia].
    intros l a ml Hl. lia.
  - apply (Hnearest 1%nat 101%N ml_enum_reset _ 2%nat 102%N ml_leaf
             3%nat eq_refl eq_refl eq_refl); [lia | | lia].
    intros l a ml Hl. apply (Hnone 1%nat 2%nat l a ml Hl). lia.
  - apply (Hfirst 2%nat 102%N ml_leaf 3%nat eq_refl). lia.
Defined.

(** ** The entry points, against any host runtime *)

Section AnyRuntime.
Context `{cfg : PyConfig} {W : Type} `{rt : HostRuntime W}.

Lemma no_abort_bind {A B} (p : Py A) (f : A → Py B) :
  no_abort p → (∀ a, no_abort (f a)) → no_abort (p ≫= f).
Proof.
  intros Hp Hf. induction p as [a| |c k IH]; cbn in *; [apply Hf | done |].
  intros x. apply IH, Hp.
Qed.

Lemma no_abort_returns {A} (p : Py A) (w : W) :
  no_abort p → ∃ a, result_of handle p w = Returned a.
Proof.
  unfold result_of. revert w.
  induction p as [a| |c k IH]; intros w Hp; cbn in *; [by eexists | done |].
  destruct (handle c w) as [x w1].
  destruct (IH x w1 (Hp x)) as [a Ha].
  destruct (run handle (k x) w1) as [[o w2] tr]. by exists a.
Qed.

Lemma provider_iter_no_abort (self : ptr) :
  no_abort (PyComEnumProviderTypeObject_iter self).
Proof.
  unfold PyComEnumProviderTypeObject_iter. cbn.
  intros [r|]; cbn; [done|].
  intros [e|]; cbn; [done|].
  intros t name [m|]; cbn; [|done].
  intros args result [] []. case_bool_decide; cbn; [|done].
  intros [] [dummy|]; cbn; done.
Qed.

(** C4: when the instance's own hook answers with an object, or fails, the
    begin-iteration of the enumerator type and of the provider type both
    return just that, in the state the hook left; the only calls made are
    the hook and the error checks, so no method of the instance is looked
    up or invoked. *)
Theorem hook_override_wins (self : ptr) (w w1 : W) (rc : option ptr) :
  handle (PyIBase_iter self) w = (rc, w1) →
  (rc ≠ None ∨ pending w1 ≠ None) →
  (pending w = None →
   result_of handle (PyComEnumTypeObject_iter self) w = Returned rc ∧
   state_of handle (PyComEnumTypeObject_iter self) w = w1 ∧
   Forall (λ c, c = PyIBase_iter self ∨ c = PyErr_Occurred)
     (calls_of handle (PyComEnumTypeObject_iter self) w) ∧
   filter is_invocation (calls_of handle (PyComEnumTypeObject_iter self) w)
   = []) ∧
  (result_of handle (PyComEnumProviderTypeObject_iter self) w = Returned rc ∧
   state_of handle (PyComEnumProviderTypeObject_iter self) w = w1 ∧
   Forall (λ c, c = PyIBase_iter self ∨ c = PyErr_Occurred)
     (calls_of handle (PyComEnumProviderTypeObject_iter self) w) ∧
   filter is_invocation
     (calls_of handle (PyComEnumProviderTypeObject_iter self) w) = []).
Proof.
  intros Hhook Hor.
  unfold result_of, state_of, calls_of, PyComEnumTypeObject_iter,
    PyComEnumProviderTypeObject_iter, C_assert.
  split.
  - intros Hentry.
    destruct NDEBUG, rc as [r|]; run_known;
      try (destruct (pending w1) eqn:E; [|by destruct Hor]); run_known;
      repeat split; auto.
  - destruct rc as [r|]; run_known;
      try (destruct (pending w1) eqn:E; [|by destruct Hor]); run_known;
      repeat split; auto.
Qed.

(** C10: the begin-iteration of the enumerator type checks at entry, by an
    [assert], that no error is pending, and stops there when one is (unless
    the check is compiled out). When none is pending it returns the hook's
    object, or fails as the hook failed, or returns the instance itself. The
    begin-iteration of the provider type has no such check: it starts with
    the hook, and no run of it stops at an assertion. *)
Theorem enum_iter_entry_assertion (self : ptr) (w : W) :
  (NDEBUG = false → pending w ≠ None →
   run handle (PyComEnumTypeObject_iter self) w
   = (AssertionFailed, w, [PyErr_Occurred])) ∧
  (pending w = None →
   ∀ rc w1, handle (PyIBase_iter self) w = (rc, w1) →
     let r := result_of handle (PyComEnumTypeObject_iter self) w in
     (rc ≠ None ∧ r = Returned rc) ∨
     (rc = None ∧ pending w1 ≠ None ∧ r = Returned None) ∨
     (rc = None ∧ pending w1 = None ∧ r = Returned (Some self))) ∧
  (∃ r, result_of handle (PyComEnumProviderTypeObject_iter self) w
        = Returned r) ∧
  (∃ tr, calls_of handle (PyComEnumProviderTypeObject_iter self) w
         = PyIBase_iter self :: tr).
Proof.
  split; [|split; [|split]].
  - intros Hdebug Hpending.
    unfold PyComEnumTypeObject_iter, C_assert. rewrite Hdebug.
    destruct (pending w) eqn:E; [|done]. by run_known.
  - intros Hentry rc w1 Hhook.
    unfold result_of, PyComEnumTypeObject_iter, C_assert.
    destruct NDEBUG, rc as [r|]; run_known; auto;
      destruct (pending w1) eqn:E; run_known;
      try (right; left; by rewrite ?E);
      destruct (handle (Py_INCREF self) w1) as [[] w2]; cbn;
      right; right; by rewrite ?E.
  - apply no_abort_returns, provider_iter_no_abort.
  - unfold calls_of, PyComEnumProviderTypeObject_iter. cbn.
    destruct (handle (PyIBase_iter self) w) as [rc w1].
    destruct (run handle _ w1) as [[o w2] tr]. by eexists.
Qed.

(** When the hook is silent and the fetch fails, the advance returns NULL.
    If the lookup of the fetch method fails, nothing more is called and the
    state is the one the lookup left. If the argument tuple was allocated
    and the call of the fetch method fails, only the two references are
    released after it, and the error that is pending is the one the call
    left. *)
Lemma iternext_fetch_failure (self : ptr) (w w1 : W) :
  handle (PyIBase_iter self) w = (None, w1) →
  pending w1 = None →
  (∀ w2,
     handle (PyObject_GetAttrString self "Next") w1 = (None, w2) →
     run handle (PyComEnumTypeObject_iternext self) w
     = (Returned None, w2,
        [PyIBase_iter self; PyErr_Occurred;
         PyObject_GetAttrString self "Next"])) ∧
  (∀ (m : ptr) w2 (args : ptr) w3 w4,
     handle (PyObject_GetAttrString self "Next") w1 = (Some m, w2) →
     handle (Py_BuildValue_i 1) w2 = (Some args, w3) →
     handle (PyObject_Call m (Some args) None) w3 = (None, w4) →
     result_of handle (PyComEnumTypeObject_iternext self) w = Returned None ∧
     pending (state_of handle (PyComEnumTypeObject_iternext self) w)
     = pending w4 ∧
     calls_of handle (PyComEnumTypeObject_iternext self) w
     = [PyIBase_iter self; PyErr_Occurred;
        PyObject_GetAttrString self "Next"; Py_BuildValue_i 1;
        PyObject_Call m (Some args) None; Py_DECREF (Some m);
        Py_DECREF (Some args)]).
Proof.
  intros Hhook Hclean. split.
  - intros w2 Hattr. unfold PyComEnumTypeObject_iternext. by run_known.
  - intros m w2 args w3 w4 Hattr Hargs Hcall.
    unfold result_of, state_of, calls_of, PyComEnumTypeObject_iternext.
    run_known.
    pose proof (Py_DECREF_pending m w4) as Hm.
    destruct (handle (Py_DECREF (Some m)) w4) as [[] w5].
    pose proof (Py_DECREF_pending args w5) as Ha.
    destruct (handle (Py_DECREF (Some args)) w5) as [[] w6].
    cbn in *. repeat split; congruence.
Qed.

(** C9: when the fetch (called with the argument tuple that was allocated
    for it) succeeds with an object whose length query fails with -1, the
    advance does not set the stop condition: it asks for item 0 and returns
    what that extraction returns, so an extraction that fails makes the
    advance fail with the error then pending. *)
Theorem failed_length_is_not_exhaustion
    (self : ptr) (w w1 w2 w3 w4 w7 w8 : W) (m args result : ptr)
    (item : option ptr) :
  handle (PyIBase_iter self) w = (None, w1) →
  pending w1 = None →
  handle (PyObject_GetAttrString self "Next") w1 = (Some m, w2) →
  handle (Py_BuildValue_i 1) w2 = (Some args, w3) →
  handle (PyObject_Call m (Some args) None) w3 = (Some result, w4) →
  handle (PySequence_Length result)
    (handle (Py_DECREF (Some args)) (handle (Py_DECREF (Some m)) w4).2).2
  = (-1, w7) →
  handle (PySequence_GetItem result 0) w7 = (item, w8) →
  result_of handle (PyComEnumTypeObject_iternext self) w = Returned item ∧
  pending (state_of handle (PyComEnumTypeObject_iternext self) w)
  = pending w8 ∧
  PySequence_GetItem result 0
    ∈ calls_of handle (PyComEnumTypeObject_iternext self) w ∧
  (∀ exc, PyErr_SetNone exc
            ∉ calls_of handle (PyComEnumTypeObject_iternext self) w) ∧
  (item = None →
   result_of handle (PyComEnumTypeObject_iternext self) w = Returned None).
Proof.
  intros Hhook Hclean Hattr Hargs Hcall Hlen Hitem.
  unfold result_of, state_of, calls_of, PyComEnumTypeObject_iternext.
  run_known.
  destruct (handle (Py_DECREF (Some m)) w4) as [[] w5]. cbn in *.
  destruct (handle (Py_DECREF (Some args)) w5) as [[] w6]. cbn in *.
  run_known.
  pose proof (Py_DECREF_pending result w8) as Hr.
  destruct (handle (Py_DECREF (Some result)) w8) as [[] w9].
  cbn in *. split; [done|]. split; [done|]. split; [|split].
  - rewrite !elem_of_cons. tauto.
  - intros exc. rewrite !not_elem_of_cons. repeat split; try done.
    apply not_elem_of_nil.
  - by intros ->.
Qed.

(** In the begin-iteration of the provider type, with the hook silent, the
    configured method found, the argument tuple allocated and the method
    called, a result other than the None
    object (a failure, or any other object) is returned as it is, and no
    tuple or iterator is made for it; exactly when the result is the None
    object, an empty tuple is made and what [PySeqIter_New] makes of it is
    returned. *)
Lemma provider_iter_result
    (self t m args : ptr) (name : string) (w w1 w2 w3 w4 : W)
    (result : option ptr) :
  handle (PyIBase_iter self) w = (None, w1) →
  pending w1 = None →
  handle (Load_ob_type self) w1 = (t, w1) →
  handle (Load_enum_method_name t) w1 = (name, w1) →
  handle (PyObject_GetAttrString self name) w1 = (Some m, w2) →
  handle (PyTuple_New 0) w2 = (Some args, w3) →
  handle (PyObject_Call m (Some args) None) w3 = (result, w4) →
  (result ≠ Some Py_None →
   result_of handle (PyComEnumProviderTypeObject_iter self) w
   = Returned result ∧
   calls_of handle (PyComEnumProviderTypeObject_iter self) w
   = [PyIBase_iter self; PyErr_Occurred; Load_ob_type self;
      Load_enum_method_name t; PyObject_GetAttrString self name;
      PyTuple_New 0; PyObject_Call m (Some args) None;
      Py_DECREF (Some m); Py_DECREF (Some args)]) ∧
  (result = Some Py_None →
   ∀ w7 w8 dummy it,
     handle (PyTuple_New 0)
       (handle (Py_DECREF (Some Py_None))
          (handle (Py_DECREF (Some args))
             (handle (Py_DECREF (Some m)) w4).2).2).2
     = (Some dummy, w7) →
     handle (PySeqIter_New dummy) w7 = (it, w8) →
     result_of handle (PyComEnumProviderTypeObject_iter self) w
     = Returned it ∧
     PySeqIter_New dummy
       ∈ calls_of handle (PyComEnumProviderTypeObject_iter self) w).
Proof.
  intros Hhook Hclean Hty Hname Hattr Hargs Hcall.
  unfold result_of, state_of, calls_of, PyComEnumProviderTypeObject_iter.
  split.
  - intros Hne. run_known.
    destruct (handle (Py_DECREF (Some m)) w4) as [[] w5].
    destruct (handle (Py_DECREF (Some args)) w5) as [[] w6].
    cbn. rewrite bool_decide_eq_false_2 by done. done.
  - intros -> w7 w8 dummy it Hdummy Hit. run_known.
    destruct (handle (Py_DECREF (Some m)) w4) as [[] w5]. cbn in *.
    destruct (handle (Py_DECREF (Some args)) w5) as [[] w6]. cbn in *.
    rewrite bool_decide_eq_true_2 by done. cbn.
    destruct (handle (Py_DECREF (Some Py_None)) w6) as [[] w6'].
    cbn in *. run_known.
    destruct (handle (Py_DECREF (Some dummy)) w8) as [[] w9].
    cbn. split; [done|]. rewrite !elem_of_cons. tauto.
Qed.
End AnyRuntime.

(** ** The entry points, on the reference runtime *)

Section OnReferenceRuntime.
Context `{cfg : PyConfig}.

Lemma fresh_above_lt (w : World) p o :
  fresh_above w → heap w !! p = Some o → (p < brk w)%N.
Proof.
  intros Hf Hp. destruct (decide (p < brk w)%N) as [|Hge]; [done|].
  rewrite Hf in Hp by lia. done.
Qed.

Lemma enum_instance_clear w self cur :
  enum_instance w self cur → enum_instance (PyErr_Clear w) self cur.
Proof. done. Qed.

(** Begin-iteration on an enumerator instance gives the instance itself. *)
Lemma begin_enum w self cur :
  enum_instance w self cur →
  curexc_type w = None →
  run runtime (PyComEnumTypeObject_iter self) w
  = (Returned (Some self), w,
     ((if NDEBUG then [] else [PyErr_Occurred])
      ++ [PyIBase_iter self; PyErr_Occurred; Py_INCREF self])%list).
Proof.
  intros (t & name & pBase & typeSize & ml & thector & def
          & Hself & _) Hclean.
  unfold PyComEnumTypeObject_iter, C_assert.
  destruct NDEBUG; repeat (rt_step; rewrite ?Hself, ?Hclean); done.
Qed.

(** An advance with an item under the cursor yields it. *)
Lemma advance_item w self x cur :
  enum_instance w self (Elem x :: cur) →
  curexc_type w = None →
  ∃ w' tr,
    run runtime (PyComEnumTypeObject_iternext self) w
    = (Returned (Some x), w', tr) ∧
    enum_instance w' self cur ∧ curexc_type w' = None.
Proof.
  intros (t & name & pBase & typeSize & ml & thector & def
          & Hself & Ht & Hfind & Hmeth & Hfresh) Hclean.
  pose proof (fresh_above_lt _ _ _ Hfresh Hself) as Hlt1.
  pose proof (fresh_above_lt _ _ _ Hfresh Ht) as Hlt2.
  assert (self ≠ t) as Hne by congruence.
  unfold PyComEnumTypeObject_iternext.
  repeat (rt_step; rewrite ?Hself, ?Hclean, ?Ht, ?Hfind, ?Hmeth).
  eexists _, _. split; [reflexivity|]. split; [|done].
  exists t, name, pBase, typeSize, ml, thector, def. cbn -[lookup insert].
  heap_simpl. repeat split; try done.
  intros p Hp. cbn -[lookup insert] in *. heap_simpl. apply Hfresh. lia.
Qed.

(** An advance with the cursor at the end sets the stop condition. *)
Lemma advance_end w self :
  enum_instance w self [] →
  curexc_type w = None →
  ∃ w' tr,
    run runtime (PyComEnumTypeObject_iternext self) w
    = (Returned None, w', tr) ∧
    enum_instance w' self [] ∧
    curexc_type w' = Some PyExc_StopIteration.
Proof.
  intros (t & name & pBase & typeSize & ml & thector & def
          & Hself & Ht & Hfind & Hmeth & Hfresh) Hclean.
  pose proof (fresh_above_lt _ _ _ Hfresh Hself) as Hlt1.
  pose proof (fresh_above_lt _ _ _ Hfresh Ht) as Hlt2.
  assert (self ≠ t) as Hne by congruence.
  unfold PyComEnumTypeObject_iternext.
  repeat (rt_step; rewrite ?Hself, ?Hclean, ?Ht, ?Hfind, ?Hmeth).
  eexists _, _. split; [reflexivity|]. split; [|done].
  exists t, name, pBase, typeSize, ml, thector, def. cbn -[lookup insert].
  heap_simpl. repeat split; try done.
  intros p Hp. cbn -[lookup insert] in *. heap_simpl. apply Hfresh. lia.
Qed.

(** An advance with a failing position under the cursor fails with the
    error of that position. *)
Lemma advance_broken w self exc cur :
  enum_instance w self (Broken exc :: cur) →
  curexc_type w = None →
  ∃ w' tr,
    run runtime (PyComEnumTypeObject_iternext self) w
    = (Returned None, w', tr) ∧
    enum_instance w' self cur ∧
    curexc_type w' = Some exc.
Proof.
  intros (t & name & pBase & typeSize & ml & thector & def
          & Hself & Ht & Hfind & Hmeth & Hfresh) Hclean.
  pose proof (fresh_above_lt _ _ _ Hfresh Hself) as Hlt1.
  pose proof (fresh_above_lt _ _ _ Hfresh Ht) as Hlt2.
  assert (self ≠ t) as Hne by congruence.
  unfold PyComEnumTypeObject_iternext.
  repeat (rt_step; rewrite ?Hself, ?Hclean, ?Ht, ?Hfind, ?Hmeth).
  eexists _, _. split; [reflexivity|]. split; [|done].
  exists t, name, pBase, typeSize, ml, thector, def. cbn -[lookup insert].
  heap_simpl. repeat split; try done.
  intros p Hp. cbn -[lookup insert] in *. heap_simpl. apply Hfresh. lia.
Qed.

(** An advance entered with an error pending returns NULL at once and leaves
    the state as it is. *)
Lemma advance_pending w self cur exc :
  enum_instance w self cur →
  curexc_type w = Some exc →
  run runtime (PyComEnumTypeObject_iternext self) w
  = (Returned None, w, [PyIBase_iter self; PyErr_Occurred]).
Proof.
  intros (t & name & pBase & typeSize & ml & thector & def
          & Hself & _) Hpending.
  unfold PyComEnumTypeObject_iternext.
  repeat (rt_step; rewrite ?Hself, ?Hpending). done.
Qed.

(** Once the cursor is at the end, every further advance signals
    exhaustion, whether or not the consumer clears the indicator. *)
Lemma advances_exhausted clear self k : ∀ w,
  enum_instance w self [] →
  curexc_type w = None ∨ curexc_type w = Some PyExc_StopIteration →
  (advances clear k self w).1
  = replicate k (Returned None, Some PyExc_StopIteration).
Proof.
  induction k as [|k IH]; intros w Hinst Herr; [done|].
  cbn [advances replicate]. destruct Herr as [Hclean|Hstop].
  - destruct (advance_end w self Hinst Hclean) as (w' & tr & Hrun & Hi & Hs).
    rewrite Hrun.
    destruct (advances clear k self _) as [rs w2] eqn:E. cbn.
    rewrite Hs. f_equal.
    change rs with (rs, w2).1. rewrite <- E. apply IH.
    + by destruct clear.
    + destruct clear; [by left | by right].
  - rewrite (advance_pending w self [] _ Hinst Hstop).
    destruct (advances clear k self _) as [rs w2] eqn:E. cbn.
    rewrite Hstop. f_equal.
    change rs with (rs, w2).1. rewrite <- E. apply IH.
    + by destruct clear.
    + destruct clear; [by left | by right].
Qed.

(** The items come out in order, one per advance, and then exhaustion. *)
Lemma advances_items clear self items k : ∀ w,
  enum_instance w self (Elem <$> items) →
  curexc_type w = None →
  (advances clear (length items + k) self w).1
  = (((λ x, (Returned (Some x), None)) <$> items)
     ++ replicate k (Returned None, Some PyExc_StopIteration))%list.
Proof.
  induction items as [|x items IH]; intros w Hinst Hclean.
  - apply advances_exhausted; auto.
  - cbn [length Nat.add advances fmap list_fmap app].
    destruct (advance_item w self x _ Hinst Hclean)
      as (w' & tr & Hrun & Hi & Hc).
    rewrite Hrun.
    destruct (advances clear (length items + k) self _) as [rs w2] eqn:E.
    cbn. rewrite Hc. f_equal.
    change rs with (rs, w2).1. rewrite <- E. apply IH.
    + by destruct clear.
    + by destruct clear.
Qed.

(** C1, as the code has it: on an enumerator instance with a silent hook
    whose native enumerator stands before [a] and [b] and, once at its end,
    stays there (its fetch of one item gives [a], then [b], then nothing on
    the third and on every later call), begin-iteration returns the instance
    itself, and four advances in a row yield [a], yield [b], signal
    exhaustion, and signal exhaustion again: the fourth yields no item, sets
    no other error and does not start over. That the fourth fetch gives
    nothing is a premise: the advance keeps no record of the exhaustion and
    asks the native enumerator again. *)
Theorem enumerator_yields_then_stays_exhausted
    (w : World) (self a b : ptr) (clear : bool) :
  enum_instance w self [Elem a; Elem b] →
  curexc_type w = None →
  result_of runtime (PyComEnumTypeObject_iter self) w
  = Returned (Some self) ∧
  (advances clear 4 self
     (state_of runtime (PyComEnumTypeObject_iter self) w)).1
  = [ (Returned (Some a), None);
      (Returned (Some b), None);
      (Returned None, Some PyExc_StopIteration);
      (Returned None, Some PyExc_StopIteration) ].
Proof.
  intros Hinst Hclean. unfold result_of, state_of.
  rewrite (begin_enum w self _ Hinst Hclean). split; [done|].
  apply (advances_items clear self [a; b] 2 w Hinst Hclean).
Qed.

(** C2: on a provider instance with a silent hook whose configured method
    succeeds and returns the None object, begin-iteration returns a new
    object, which is not the None object: a sequence iterator at index 0
    over an empty tuple. No error is pending, and the first advance of that
    iterator signals exhaustion. *)
Theorem provider_None_gives_empty_iterator
    (w : World) (self : ptr) (M : string) :
  provider_instance w self M (Method_Return Py_None) →
  curexc_type w = None →
  ∃ it seq,
    result_of runtime (PyComEnumProviderTypeObject_iter self) w
    = Returned (Some it) ∧
    let w' := state_of runtime (PyComEnumProviderTypeObject_iter self) w in
    heap w !! it = None ∧
    it ≠ Py_None ∧
    heap w' !! it = Some (OSeqIter 0 (Some seq)) ∧
    heap w' !! seq = Some (OTuple []) ∧
    curexc_type w' = None ∧
    exhausted (seqiter_next it w') ∧
    curexc_type (seqiter_next it w').2 = None.
Proof.
  intros (t & name & pBase & typeSize & ml & thector & def & cur
          & Hself & Ht & Hfind & Hmeth & Hnone & Hfresh) Hclean.
  pose proof (fresh_above_lt _ _ _ Hfresh Hself) as Hlt1.
  pose proof (fresh_above_lt _ _ _ Hfresh Ht) as Hlt2.
  pose proof (fresh_above_lt _ _ _ Hfresh Hnone) as Hlt3.
  unfold result_of, state_of, PyComEnumProviderTypeObject_iter.
  repeat (rt_step; rewrite ?Hself, ?Hclean, ?Ht, ?Hfind, ?Hmeth).
  rewrite bool_decide_eq_true_2 by done.
  repeat (rt_step; rewrite ?Hself, ?Hclean, ?Ht, ?Hfind, ?Hmeth).
  exists (N.succ (N.succ (N.succ (brk w)))), (N.succ (N.succ (brk w))).
  split; [reflexivity|].
  cbn -[lookup insert]. heap_simpl.
  split; [apply Hfresh; lia|]. split; [lia|].
  split; [done|]. split; [done|]. split; [done|].
  unfold seqiter_next, exhausted.
  repeat (rt_step; rewrite ?Hclean). auto.
Qed.

(** When the configured method of a provider instance answers with an object
    other than the None object, begin-iteration returns that object, and
    the calls end with the release of the method and of the arguments. *)
Lemma provider_returns_object (w : World) (self p : ptr) (M : string) :
  provider_instance w self M (Method_Return p) →
  curexc_type w = None →
  p ≠ Py_None →
  ∃ t m args w',
    run runtime (PyComEnumProviderTypeObject_iter self) w
    = (Returned (Some p), w',
       [PyIBase_iter self; PyErr_Occurred; Load_ob_type self;
        Load_enum_method_name t; PyObject_GetAttrString self M;
        PyTuple_New 0; PyObject_Call m args None;
        Py_DECREF (Some m); Py_DECREF args]).
Proof.
  intros (t & name & pBase & typeSize & ml & thector & def & cur
          & Hself & Ht & Hfind & Hmeth & Hnone & Hfresh) Hclean Hp.
  pose proof (fresh_above_lt _ _ _ Hfresh Hself) as Hlt1.
  pose proof (fresh_above_lt _ _ _ Hfresh Ht) as Hlt2.
  unfold PyComEnumProviderTypeObject_iter.
  repeat (rt_step; rewrite ?Hself, ?Hclean, ?Ht, ?Hfind, ?Hmeth).
  rewrite bool_decide_eq_false_2 by congruence.
  eexists _, _, _, _. reflexivity.
Qed.
End OnReferenceRuntime.

(** C3: when the hook is silent and the fetch fails, the advance returns NULL
    and yields no item, and the failure reaches the caller as it was
    raised: after a failed lookup of the fetch method nothing more is
    called, and after a failed call (made with the argument tuple that was
    allocated for it) only the two references are released, so the error
    pending at return is the one the failure left. In
    particular, on an enumerator whose first fetch gives [a] and whose
    second fetch fails, two advances yield [a] and then fail with that
    error, and no item comes after [a]. *)
Theorem fetch_failure_propagates {W : Type} `{rt : HostRuntime W}
    `{cfg : PyConfig} (self : ptr) (w w1 : W)
    (v : World) (inst a exc : ptr) :
  (handle (PyIBase_iter self) w = (None, w1) →
   pending w1 = None →
   (∀ w2,
      handle (PyObject_GetAttrString self "Next") w1 = (None, w2) →
      run handle (PyComEnumTypeObject_iternext self) w
      = (Returned None, w2,
         [PyIBase_iter self; PyErr_Occurred;
          PyObject_GetAttrString self "Next"])) ∧
   (∀ (m : ptr) w2 (args : ptr) w3 w4,
      handle (PyObject_GetAttrString self "Next") w1 = (Some m, w2) →
      handle (Py_BuildValue_i 1) w2 = (Some args, w3) →
      handle (PyObject_Call m (Some args) None) w3 = (None, w4) →
      result_of handle (PyComEnumTypeObject_iternext self) w = Returned None ∧
      pending (state_of handle (PyComEnumTypeObject_iternext self) w)
      = pending w4 ∧
      calls_of handle (PyComEnumTypeObject_iternext self) w
      = [PyIBase_iter self; PyErr_Occurred;
         PyObject_GetAttrString self "Next"; Py_BuildValue_i 1;
         PyObject_Call m (Some args) None; Py_DECREF (Some m);
         Py_DECREF (Some args)])) ∧
  (enum_instance v inst [Elem a; Broken exc] →
   curexc_type v = None →
   (advances false 2 inst v).1
   = [ (Returned (Some a), None); (Returned None, Some exc) ]).
Proof.
  split; [apply iternext_fetch_failure|].
  intros Hinst Hclean. cbn [advances].
  destruct (advance_item v inst a _ Hinst Hclean)
    as (v1 & tr1 & Hrun1 & Hinst1 & Hclean1).
  rewrite Hrun1.
  destruct (advance_broken v1 inst exc _ Hinst1 Hclean1)
    as (v2 & tr2 & Hrun2 & _ & Hexc).
  rewrite Hrun2. cbn. by rewrite Hclean1, Hexc.
Qed.

(** C8: in the begin-iteration of the provider type, with the hook silent,
    the configured method found, the argument tuple allocated and the method
    called, the result is replaced by an empty iterator exactly when it is
    the None object: then an empty tuple is made and what [PySeqIter_New]
    makes of it is returned. Any other result, a failure or an object, is
    returned as it is, and nothing looks at whether it can be iterated. In
    particular an instance of [PyOleEmpty] or of [PyOleMissing] that the
    method returns is what begin-iteration returns, and no iterator is
    made. *)
Theorem provider_normalises_only_None {W : Type} `{rt : HostRuntime W}
    `{cfg : PyConfig} (self t m args : ptr) (name : string)
    (w w1 w2 w3 w4 : W) (result : option ptr)
    (v : World) (inst p : ptr) (M : string) :
  (handle (PyIBase_iter self) w = (None, w1) →
   pending w1 = None →
   handle (Load_ob_type self) w1 = (t, w1) →
   handle (Load_enum_method_name t) w1 = (name, w1) →
   handle (PyObject_GetAttrString self name) w1 = (Some m, w2) →
   handle (PyTuple_New 0) w2 = (Some args, w3) →
   handle (PyObject_Call m (Some args) None) w3 = (result, w4) →
   (result ≠ Some Py_None →
    result_of handle (PyComEnumProviderTypeObject_iter self) w
    = Returned result ∧
    calls_of handle (PyComEnumProviderTypeObject_iter self) w
    = [PyIBase_iter self; PyErr_Occurred; Load_ob_type self;
       Load_enum_method_name t; PyObject_GetAttrString self name;
       PyTuple_New 0; PyObject_Call m (Some args) None;
       Py_DECREF (Some m); Py_DECREF (Some args)]) ∧
   (result = Some Py_None →
    ∀ w7 w8 dummy it,
      handle (PyTuple_New 0)
        (handle (Py_DECREF (Some Py_None))
           (handle (Py_DECREF (Some args))
              (handle (Py_DECREF (Some m)) w4).2).2).2
      = (Some dummy, w7) →
      handle (PySeqIter_New dummy) w7 = (it, w8) →
      result_of handle (PyComEnumProviderTypeObject_iter self) w
      = Returned it ∧
      PySeqIter_New dummy
        ∈ calls_of handle (PyComEnumProviderTypeObject_iter self) w)) ∧
  (provider_instance v inst M (Method_Return p) →
   curexc_type v = None →
   heap v !! p = Some PyOleEmpty_ctor ∨ heap v !! p = Some PyOleMissing_ctor →
   result_of runtime (PyComEnumProviderTypeObject_iter inst) v
   = Returned (Some p) ∧
   ∀ seq, PySeqIter_New seq
            ∉ calls_of runtime (PyComEnumProviderTypeObject_iter inst) v).
Proof.
  split; [apply provider_iter_result|].
  intros Hinst Hclean Hsentinel.
  assert (p ≠ Py_None) as Hp.
  { destruct Hinst as (? & ? & ? & ? & ? & ? & ? & ? & _ & _ & _ & _
                       & Hnone & _).
    unfold PyOleEmpty_ctor, PyOleMissing_ctor in Hsentinel.
    intros ->. destruct Hsentinel; congruence. }
  destruct (provider_returns_object v inst p M Hinst Hclean Hp)
    as (t' & m' & args' & v' & Hrun).
  unfold result_of, calls_of. rewrite Hrun. split; [done|].
  intros seq. cbn. rewrite !not_elem_of_cons.
  repeat split; try done. apply not_elem_of_nil.
Qed.

(** ** The statements at concrete inputs *)

Lemma enum_world_fresh hook cur : fresh_above (enum_world hook cur).
Proof.
  intros p Hp. cbn -[lookup insert] in *.
  rewrite !lookup_insert_ne by (unfold Py_None, PyInterfaceType_Type; lia). apply lookup_empty.
Qed.

Lemma enum_world_instance cur :
  @enum_instance debug_build (enum_world Hook_null cur) 101%N cur.
Proof.
  exists 100%N, "PyIEnum", None, 24, [def_Next], 0%N, def_Next.
  split; [reflexivity|]. split; [reflexivity|]. split; [reflexivity|].
  split; [reflexivity|]. apply enum_world_fresh.
Qed.

Lemma provider_world_fresh hook r : fresh_above (provider_world hook r).
Proof.
  intros p Hp. cbn -[lookup insert] in *. unfold three_types_heap.
  rewrite !lookup_insert_ne by (unfold Py_None, PyInterfaceType_Type; lia). apply lookup_empty.
Qed.

Lemma provider_world_instance r :
  @provider_instance debug_build (provider_world Hook_null r) 106%N
    "GetEnum" r.
Proof.
  exists 102%N, "PyIProvider", (Some 101%N), 24,
    [ {| ml_name := "GetEnum"; ml_meth := r |} ], 0%N,
    {| ml_name := "GetEnum"; ml_meth := r |}, [].
  split; [reflexivity|]. split; [reflexivity|]. split; [reflexivity|].
  split; [reflexivity|]. split; [reflexivity|]. apply provider_world_fresh.
Qed.

(** C1 as the specification words it does not hold. The native enumerator
    of the instance at 101 holds 50 and 51 and starts over once it has
    reported its end, so its fetch of one item gives [50], then [51], then
    nothing, as the claim asks of the first three calls: these are the
    sequences at 203, 207 and 211 that the first three advances measure.
    Begin-iteration returns the instance, and the advances yield 50, yield
    51 and signal exhaustion. The fourth advance, entered after the consumer
    has cleared the stop condition, fetches again, gets the sequence at 215
    and yields its item 50 with no error pending: it does not signal
    exhaustion. *)
Lemma fourth_advance_follows_the_fetch :
  let h := handle_rewinding [Elem 50%N; Elem 51%N] in
  let next := PyComEnumTypeObject_iternext 101%N in
  let w0 := enum_world Hook_null [Elem 50%N; Elem 51%N] in
  let w1 := state_of h next w0 in
  let w2 := state_of h next w1 in
  let w3 := state_of h next w2 in
  let w4 := state_of h next (PyErr_Clear w3) in
  result_of h (@PyComEnumTypeObject_iter debug_build 101%N) w0
  = Returned (Some 101%N) ∧
  state_of h (@PyComEnumTypeObject_iter debug_build 101%N) w0 = w0 ∧
  (result_of h next w0 = Returned (Some 50%N) ∧ curexc_type w1 = None) ∧
  (result_of h next w1 = Returned (Some 51%N) ∧ curexc_type w2 = None) ∧
  (result_of h next w2 = Returned None ∧
   curexc_type w3 = Some PyExc_StopIteration) ∧
  (result_of h next (PyErr_Clear w3) = Returned (Some 50%N) ∧
   curexc_type w4 = None) ∧
  (PySequence_Length 203%N ∈ calls_of h next w0 ∧
   PySequence_Length 207%N ∈ calls_of h next w1 ∧
   PySequence_Length 211%N ∈ calls_of h next w2 ∧
   PySequence_Length 215%N ∈ calls_of h next (PyErr_Clear w3)) ∧
  (heap w4 !! 203%N = Some (OTuple [Some 50%N]) ∧
   heap w4 !! 207%N = Some (OTuple [Some 51%N]) ∧
   heap w4 !! 211%N = Some (OTuple []) ∧
   heap w4 !! 215%N = Some (OTuple [Some 50%N])) ∧
  result_of h next (PyErr_Clear w3) ≠ Returned None.
Proof.
  intros h next w0 w1 w2 w3 w4.
  split; [vm_compute; reflexivity|]. split; [vm_compute; reflexivity|].
  split; [split; vm_compute; reflexivity|].
  split; [split; vm_compute; reflexivity|].
  split; [split; vm_compute; reflexivity|].
  split; [split; vm_compute; reflexivity|].
  split.
  { repeat split; apply (list_elem_of_lookup_2 _ 7%nat);
      vm_compute; reflexivity. }
  split; [repeat split; vm_compute; reflexivity|].
  vm_compute. discriminate.
Qed.

Lemma enumerator_yields_then_stays_exhausted_witness :
  let w := enum_world Hook_null [Elem 50%N; Elem 51%N] in
  result_of runtime (@PyComEnumTypeObject_iter debug_build 101%N) w
  = Returned (Some 101%N) ∧
  (advances true 4 101%N
     (state_of runtime (@PyComEnumTypeObject_iter debug_build 101%N) w)).1
  = [ (Returned (Some 50%N), None);
      (Returned (Some 51%N), None);
      (Returned None, Some PyExc_StopIteration);
      (Returned None, Some PyExc_StopIteration) ].
Proof.
  apply (@enumerator_yields_then_stays_exhausted debug_build
           (enum_world Hook_null [Elem 50%N; Elem 51%N]) 101%N 50%N 51%N true).
  - apply enum_world_instance.
  - reflexivity.
Defined.

Lemma provider_None_gives_empty_iterator_witness :
  let w := provider_world Hook_null (Method_Return Py_None) in
  ∃ it seq,
    result_of runtime (PyComEnumProviderTypeObject_iter 106%N) w
    = Returned (Some it) ∧
    let w' := state_of runtime (PyComEnumProviderTypeObject_iter 106%N) w in
    heap w !! it = None ∧
    it ≠ Py_None ∧
    heap w' !! it = Some (OSeqIter 0 (Some seq)) ∧
    heap w' !! seq = Some (OTuple []) ∧
    curexc_type w' = None ∧
    exhausted (seqiter_next it w') ∧
    curexc_type (seqiter_next it w').2 = None.
Proof.
  apply (@provider_None_gives_empty_iterator debug_build
           (provider_world Hook_null (Method_Return Py_None)) 106%N "GetEnum").
  - apply provider_world_instance.
  - reflexivity.
Defined.

Lemma fetch_failure_propagates_witness :
  let w0 := enum_world Hook_null [Elem 50%N; Broken PyExc_SystemError] in
  let w := state_of runtime (PyComEnumTypeObject_iternext 101%N) w0 in
  let v := provider_world Hook_null IEnum_Next in
  (advances false 2 101%N w0).1
  = [ (Returned (Some 50%N), None);
      (Returned None, Some PyExc_SystemError) ] ∧
  (result_of runtime (PyComEnumTypeObject_iternext 101%N) w = Returned None ∧
   curexc_type (state_of runtime (PyComEnumTypeObject_iternext 101%N) w)
   = Some PyExc_SystemError) ∧
  (result_of runtime (PyComEnumTypeObject_iternext 104%N) v = Returned None ∧
   curexc_type (state_of runtime (PyComEnumTypeObject_iternext 104%N) v)
   = Some PyExc_AttributeError).
Proof.
  intros w0 w v.
  destruct (@fetch_failure_propagates World reference_runtime debug_build
              101%N w w w0 101%N 50%N PyExc_SystemError)
    as [Hfail Htwo].
  destruct (Hfail eq_refl eq_refl) as [_ Hcall].
  destruct (Hcall _ _ _ _ _ eq_refl eq_refl eq_refl) as (Hr & Hp & _).
  pose proof (Htwo (enum_world_instance _) eq_refl) as Hscenario.
  destruct (@fetch_failure_propagates World reference_runtime debug_build
              104%N v v w0 101%N 50%N PyExc_SystemError)
    as [Hnoattr _].
  destruct (Hnoattr eq_refl eq_refl) as [Hattr _].
  pose proof (Hattr _ eq_refl) as Hrun.
  split; [exact Hscenario|]. split; [split|split].
  - exact Hr.
  - exact (eq_trans Hp eq_refl).
  - exact (f_equal (λ r, r.1.1) Hrun).
  - exact (f_equal (λ r, curexc_type r.1.2) Hrun).
Defined.

Lemma hook_override_wins_witness :
  let w := provider_world (Hook_value 50%N) (Method_Return Py_None) in
  let e := provider_world (Hook_error PyExc_TypeError)
             (Method_Return Py_None) in
  (result_of runtime (@PyComEnumTypeObject_iter debug_build 106%N) w
   = Returned (Some 50%N) ∧
   filter is_invocation
     (calls_of runtime (@PyComEnumTypeObject_iter debug_build 106%N) w) = []) ∧
  (result_of runtime (PyComEnumProviderTypeObject_iter 106%N) w
   = Returned (Some 50%N) ∧
   filter is_invocation
     (calls_of runtime (PyComEnumProviderTypeObject_iter 106%N) w) = []) ∧
  (result_of runtime (PyComEnumProviderTypeObject_iter 106%N) e
   = Returned None ∧
   curexc_type (state_of runtime (PyComEnumProviderTypeObject_iter 106%N) e)
   = Some PyExc_TypeError ∧
   filter is_invocation
     (calls_of runtime (PyComEnumProviderTypeObject_iter 106%N) e) = []).
Proof.
  intros w e.
  assert (Hvalue : Some 50%N ≠ None ∨ pending w ≠ None)
    by (left; discriminate).
  assert (Herror : (None : option N) ≠ None
                   ∨ pending (raise PyExc_TypeError e) ≠ None)
    by (right; discriminate).
  destruct (@hook_override_wins debug_build World reference_runtime
              106%N w w (Some 50%N) eq_refl Hvalue) as [Henum Hprov].
  destruct (Henum eq_refl) as (He1 & _ & _ & He2).
  destruct Hprov as (Hp1 & _ & _ & Hp2).
  destruct (@hook_override_wins debug_build World reference_runtime
              106%N e (raise PyExc_TypeError e) None eq_refl Herror)
    as [_ (Hf1 & Hf2 & _ & Hf3)].
  split; [exact (conj He1 He2)|]. split; [exact (conj Hp1 Hp2)|].
  split; [exact Hf1|]. split; [|exact Hf3].
  exact (f_equal curexc_type Hf2).
Defined.

Lemma provider_normalises_only_None_witness :
  let w := provider_world Hook_null (Method_Return 105%N) in
  let v := provider_world Hook_null (Method_Return Py_None) in
  heap w !! 105%N = Some PyOleEmpty_ctor ∧
  result_of runtime (PyComEnumProviderTypeObject_iter 106%N) w
  = Returned (Some 105%N) ∧
  (∀ seq, PySeqIter_New seq
            ∉ calls_of runtime (PyComEnumProviderTypeObject_iter 106%N) w) ∧
  (∃ it dummy,
     result_of runtime (PyComEnumProviderTypeObject_iter 106%N) v
     = Returned (Some it) ∧
     it ≠ Py_None ∧
     PySeqIter_New dummy
       ∈ calls_of runtime (PyComEnumProviderTypeObject_iter 106%N) v).
Proof.
  intros w v.
  destruct (runtime (PyObject_GetAttrString 106%N "GetEnum") v)
    as [m v2] eqn:Em.
  destruct m as [m|]; [|discriminate Em].
  destruct (runtime (PyTuple_New 0) v2) as [args v3] eqn:Eargs.
  destruct args as [args|]; [|discriminate Eargs].
  destruct (runtime (PyObject_Call m (Some args) None) v3)
    as [result v4] eqn:Ecall.
  assert (result = Some Py_None) as Hresult.
  { injection Em as <- <-. injection Eargs as <- <-.
    injection Ecall as <- _. reflexivity. }
  destruct (runtime (PyTuple_New 0)
              (runtime (Py_DECREF (Some Py_None))
                 (runtime (Py_DECREF (Some args))
                    (runtime (Py_DECREF (Some m)) v4).2).2).2)
    as [dummy v7] eqn:Edummy.
  destruct dummy as [dummy|]; [|discriminate Edummy].
  destruct (runtime (PySeqIter_New dummy) v7) as [it v8] eqn:Eit.
  assert (∃ i, it = Some i ∧ i ≠ Py_None) as (i & -> & Hi).
  { injection Em as <- <-. injection Eargs as <- <-.
    injection Ecall as _ <-. injection Edummy as <- <-.
    injection Eit as <- _. by eexists. }
  destruct (@provider_normalises_only_None World reference_runtime
              debug_build 106%N 102%N m args "GetEnum" v v v2 v3 v4
              result w 106%N 105%N "GetEnum")
    as [Hany Hsentinel].
  destruct (Hany eq_refl eq_refl eq_refl eq_refl Em Eargs Ecall)
    as [_ HNone].
  destruct (HNone Hresult v7 v8 dummy (Some i) Edummy Eit) as [Hr' Hc'].
  destruct (Hsentinel (provider_world_instance _) eq_refl
              (or_introl eq_refl)) as [Hr Hc].
  split; [reflexivity|]. split; [exact Hr|]. split; [exact Hc|].
  exists i, dummy. exact (conj Hr' (conj Hi Hc')).
Defined.

Lemma failed_length_is_not_exhaustion_witness :
  let w := provider_world Hook_null (Method_Return 105%N) in
  heap w !! 105%N = Some PyOleEmpty_ctor ∧
  result_of runtime (PyComEnumTypeObject_iternext 108%N) w = Returned None ∧
  curexc_type (state_of runtime (PyComEnumTypeObject_iternext 108%N) w)
  = Some PyExc_TypeError ∧
  PySequence_GetItem 105%N 0
    ∈ calls_of runtime (PyComEnumTypeObject_iternext 108%N) w ∧
  PyErr_SetNone PyExc_StopIteration
    ∉ calls_of runtime (PyComEnumTypeObject_iternext 108%N) w.
Proof.
  intros w.
  destruct (@failed_length_is_not_exhaustion World reference_runtime
              108%N w w _ _ _ _ _ 200%N _ 105%N None
              eq_refl eq_refl eq_refl eq_refl eq_refl eq_refl eq_refl)
    as (Hr & Hp & Hget & Hstop & _).
  split; [reflexivity|]. split; [exact Hr|].
  split; [exact (eq_trans Hp eq_refl)|]. split; [exact Hget|].
  exact (Hstop PyExc_StopIteration).
Defined.

Lemma enum_iter_entry_assertion_witness :
  let w := enum_world Hook_null [] in
  let e := raise PyExc_TypeError w in
  run runtime (@PyComEnumTypeObject_iter debug_build 101%N) e
  = (AssertionFailed, e, [PyErr_Occurred]) ∧
  result_of runtime (@PyComEnumTypeObject_iter debug_build 101%N) w
  = Returned (Some 101%N) ∧
  (∃ r, result_of runtime (PyComEnumProviderTypeObject_iter 101%N) e
        = Returned r) ∧
  (∃ tr, calls_of runtime (PyComEnumProviderTypeObject_iter 101%N) e
         = PyIBase_iter 101%N :: tr).
Proof.
  intros w e.
  destruct (@enum_iter_entry_assertion debug_build World reference_runtime
              101%N e) as (Hassert & _ & Hret & Hfirst).
  destruct (@enum_iter_entry_assertion debug_build World reference_runtime
              101%N w) as (_ & Hout & _ & _).
  split; [exact (Hassert eq_refl ltac:(discriminate))|].
  split; [|exact (conj Hret Hfirst)].
  destruct (Hout eq_refl None w eq_refl)
    as [[Hrc _]|[(_ & Hp & _)|(_ & _ & Hr)]].
  - by destruct Hrc.
  - by destruct Hp.
  - exact Hr.
Defined.

(** ** Further properties of the entry points, against any host runtime *)

Section MoreOnAnyRuntime.
Context `{cfg : PyConfig} {W : Type} `{rt : HostRuntime W}.

(** X1: the advance defers to the instance's hook like the begin-iteration
    does: when the hook answers with an object, or NULL comes back with an
    error pending, the advance returns just that in the state the hook
    left, and calls nothing but the hook and the error check. *)
Theorem iternext_defers_to_hook (self : ptr) (w w1 : W) (rc : option ptr) :
  handle (PyIBase_iter self) w = (rc, w1) →
  (rc ≠ None ∨ pending w1 ≠ None) →
  run handle (PyComEnumTypeObject_iternext self) w
  = (Returned rc, w1,
     PyIBase_iter self
     :: match rc with Some _ => [] | None => [PyErr_Occurred] end).
Proof.
  intros Hhook Hor. unfold PyComEnumTypeObject_iternext.
  destruct rc as [r|]; run_known; [done|].
  destruct (pending w1) eqn:E; [|by destruct Hor]. by run_known.
Qed.

(** X2: with the entry check compiled out, the begin-iteration of the
    enumerator type needs no clean error indicator at entry: whatever was
    pending, the hook's object, or NULL when an error is pending after the
    hook, is returned, and the instance is not. *)
Theorem iter_without_entry_check (self : ptr) (w w1 : W) (rc : option ptr) :
  NDEBUG = true →
  handle (PyIBase_iter self) w = (rc, w1) →
  (rc ≠ None ∨ pending w1 ≠ None) →
  run handle (PyComEnumTypeObject_iter self) w
  = (Returned rc, w1,
     PyIBase_iter self
     :: match rc with Some _ => [] | None => [PyErr_Occurred] end).
Proof.
  intros Hrelease Hhook Hor. unfold PyComEnumTypeObject_iter, C_assert.
  rewrite Hrelease.
  destruct rc as [r|]; run_known; [done|].
  destruct (pending w1) eqn:E; [|by destruct Hor]. by run_known.
Qed.

(** X3: when the begin-iteration of the enumerator type returns the
    instance, it has taken exactly one new reference to it, and it releases
    nothing. *)
Theorem iter_returns_new_reference_to_self (self : ptr) (w w1 : W) :
  NDEBUG = true ∨ pending w = None →
  handle (PyIBase_iter self) w = (None, w1) →
  pending w1 = None →
  result_of handle (PyComEnumTypeObject_iter self) w = Returned (Some self) ∧
  filter is_INCREF (calls_of handle (PyComEnumTypeObject_iter self) w)
  = [Py_INCREF self] ∧
  filter is_DECREF (calls_of handle (PyComEnumTypeObject_iter self) w) = [].
Proof.
  intros Hentry Hhook Hclean.
  unfold result_of, calls_of, PyComEnumTypeObject_iter, C_assert.
  destruct NDEBUG eqn:En.
  - run_known. destruct (handle (Py_INCREF self) w1) as [[] w2]. done.
  - destruct Hentry as [|Hentry]; [done|]. run_known.
    destruct (handle (Py_INCREF self) w1) as [[] w2]. done.
Qed.

(** X4: when the fetch (called with the argument tuple that was allocated
    for it) succeeds with a sequence of length zero, the advance sets the
    stop condition, asks for no item, releases the sequence and returns
    NULL. *)
Theorem iternext_empty_fetch_stops
    (self m args result : ptr) (w w1 w2 w3 w4 w7 : W) :
  handle (PyIBase_iter self) w = (None, w1) →
  pending w1 = None →
  handle (PyObject_GetAttrString self "Next") w1 = (Some m, w2) →
  handle (Py_BuildValue_i 1) w2 = (Some args, w3) →
  handle (PyObject_Call m (Some args) None) w3 = (Some result, w4) →
  handle (PySequence_Length result)
    (handle (Py_DECREF (Some args)) (handle (Py_DECREF (Some m)) w4).2).2
  = (0, w7) →
  result_of handle (PyComEnumTypeObject_iternext self) w = Returned None ∧
  pending (state_of handle (PyComEnumTypeObject_iternext self) w)
  = pending (handle (PyErr_SetNone PyExc_StopIteration) w7).2 ∧
  calls_of handle (PyComEnumTypeObject_iternext self) w
  = [PyIBase_iter self; PyErr_Occurred;
     PyObject_GetAttrString self "Next"; Py_BuildValue_i 1;
     PyObject_Call m (Some args) None; Py_DECREF (Some m);
     Py_DECREF (Some args);
     PySequence_Length result; PyErr_SetNone PyExc_StopIteration;
     Py_DECREF (Some result)].
Proof.
  intros Hhook Hclean Hattr Hargs Hcall Hlen.
  unfold result_of, state_of, calls_of, PyComEnumTypeObject_iternext.
  run_known.
  destruct (handle (Py_DECREF (Some m)) w4) as [[] w5]. cbn in *.
  destruct (handle (Py_DECREF (Some args)) w5) as [[] w6]. cbn in *.
  run_known.
  destruct (handle (PyErr_SetNone PyExc_StopIteration) w7) as [[] w8].
  cbn in *.
  pose proof (Py_DECREF_pending result w8) as Hr.
  destruct (handle (Py_DECREF (Some result)) w8) as [[] w9].
  cbn in *. done.
Qed.

(** X5: when the fetch (called with the argument tuple that was allocated
    for it) succeeds with a sequence whose length is not zero, whatever it
    is, the advance asks for item 0 only, once, and returns what that gives;
    items beyond the first are never looked at. *)
Theorem iternext_returns_first_item_only
    (self m args result : ptr) (w w1 w2 w3 w4 w7 w8 : W) (item : option ptr)
    (n : Z) :
  handle (PyIBase_iter self) w = (None, w1) →
  pending w1 = None →
  handle (PyObject_GetAttrString self "Next") w1 = (Some m, w2) →
  handle (Py_BuildValue_i 1) w2 = (Some args, w3) →
  handle (PyObject_Call m (Some args) None) w3 = (Some result, w4) →
  handle (PySequence_Length result)
    (handle (Py_DECREF (Some args)) (handle (Py_DECREF (Some m)) w4).2).2
  = (n, w7) →
  n ≠ 0 →
  handle (PySequence_GetItem result 0) w7 = (item, w8) →
  result_of handle (PyComEnumTypeObject_iternext self) w = Returned item ∧
  calls_of handle (PyComEnumTypeObject_iternext self) w
  = [PyIBase_iter self; PyErr_Occurred;
     PyObject_GetAttrString self "Next"; Py_BuildValue_i 1;
     PyObject_Call m (Some args) None; Py_DECREF (Some m);
     Py_DECREF (Some args);
     PySequence_Length result; PySequence_GetItem result 0;
     Py_DECREF (Some result)].
Proof.
  intros Hhook Hclean Hattr Hargs Hcall Hlen Hn Hitem.
  unfold result_of, calls_of, PyComEnumTypeObject_iternext.
  run_known.
  destruct (handle (Py_DECREF (Some m)) w4) as [[] w5]. cbn in *.
  destruct (handle (Py_DECREF (Some args)) w5) as [[] w6]. cbn in *.
  run_known. destruct (Z.eqb_spec n 0) as [|_]; [done|]. run_known.
  destruct (handle (Py_DECREF (Some result)) w8) as [[] w9].
  cbn in *. done.
Qed.

(** X6: on every path through the advance with a silent hook on which the
    argument tuple was allocated (and on the path where the fetch method is
    not found), the references it obtained (the bound method, the argument
    tuple, the fetched sequence) are each released once, in that order, and
    nothing else is; no reference is taken, and the item it returns is not
    released. *)
Theorem iternext_releases_what_it_obtained (self : ptr) (w w1 : W) :
  handle (PyIBase_iter self) w = (None, w1) →
  pending w1 = None →
  let tr := calls_of handle (PyComEnumTypeObject_iternext self) w in
  ∀ method w2,
    handle (PyObject_GetAttrString self "Next") w1 = (method, w2) →
    match method with
    | None => filter is_DECREF tr = [] ∧ filter is_INCREF tr = []
    | Some m =>
        ∀ (args : ptr) w3 result w4,
          handle (Py_BuildValue_i 1) w2 = (Some args, w3) →
          handle (PyObject_Call m (Some args) None) w3 = (result, w4) →
          filter is_DECREF tr
          = Py_DECREF (Some m) :: Py_DECREF (Some args)
            :: match result with
               | Some r => [Py_DECREF (Some r)]
               | None => []
               end ∧
          filter is_INCREF tr = []
    end.
Proof.
  intros Hhook Hclean tr. subst tr. unfold calls_of.
  assert (Hall : ∀ method w2,
    handle (PyObject_GetAttrString self "Next") w1 = (method, w2) →
    match method with
    | None =>
        (run handle (PyComEnumTypeObject_iternext self) w).2
        = [PyIBase_iter self; PyErr_Occurred;
           PyObject_GetAttrString self "Next"]
    | Some m =>
        ∀ (args : ptr) w3 result w4,
          handle (Py_BuildValue_i 1) w2 = (Some args, w3) →
          handle (PyObject_Call m (Some args) None) w3 = (result, w4) →
          ∃ mid,
            (run handle (PyComEnumTypeObject_iternext self) w).2
            = ([PyIBase_iter self; PyErr_Occurred;
                PyObject_GetAttrString self "Next"; Py_BuildValue_i 1;
                PyObject_Call m (Some args) None; Py_DECREF (Some m);
                Py_DECREF (Some args)]
               ++ match result with
                  | Some r => PySequence_Length r :: mid
                              :: [Py_DECREF (Some r)]
                  | None => []
                  end)%list ∧
            is_DECREF mid = false ∧ is_INCREF mid = false
    end).
  { intros method w2 Hattr. unfold PyComEnumTypeObject_iternext.
    destruct method as [m|]; [|by run_known].
    intros args w3 result w4 Hargs Hcall. run_known.
    destruct (handle (Py_DECREF (Some m)) w4) as [[] w5]. cbn.
    destruct (handle (Py_DECREF (Some args)) w5) as [[] w6]. cbn.
    destruct result as [r|]; cbn; [|by exists PyErr_Occurred].
    destruct (handle (PySequence_Length r) w6) as [n w7]. cbn.
    destruct (n =? 0); cbn.
    - destruct (handle (PyErr_SetNone PyExc_StopIteration) w7) as [[] w8].
      cbn. destruct (handle (Py_DECREF (Some r)) w8) as [[] w9]. cbn.
      by eexists.
    - destruct (handle (PySequence_GetItem r 0) w7) as [item w8]. cbn.
      destruct (handle (Py_DECREF (Some r)) w8) as [[] w9]. cbn.
      by eexists. }
  intros method w2 Hattr.
  pose proof (Hall method w2 Hattr) as Hm.
  destruct method as [m|]; [|by rewrite Hm].
  intros args w3 result w4 Hargs Hcall.
  destruct (Hm args w3 result w4 Hargs Hcall) as (mid & -> & Hd & Hi).
  destruct result; cbn; [|done].
  destruct mid; done.
Qed.

(** X7: neither entry point checks the allocation of the argument tuple.
    When it fails, the advance still calls the fetch method, with NULL for
    the arguments, and then applies [Py_DECREF] to NULL; the begin-iteration
    of the provider type does the same with the configured method. *)
Theorem argument_allocation_is_unchecked
    (self m t : ptr) (name : string) (w w1 w2 w3 v v1 v2 v3 : W) :
  (handle (PyIBase_iter self) w = (None, w1) →
   pending w1 = None →
   handle (PyObject_GetAttrString self "Next") w1 = (Some m, w2) →
   handle (Py_BuildValue_i 1) w2 = (None, w3) →
   ∃ rest,
     calls_of handle (PyComEnumTypeObject_iternext self) w
     = ([PyIBase_iter self; PyErr_Occurred;
         PyObject_GetAttrString self "Next"; Py_BuildValue_i 1;
         PyObject_Call m None None; Py_DECREF (Some m); Py_DECREF None]
        ++ rest)%list) ∧
  (handle (PyIBase_iter self) v = (None, v1) →
   pending v1 = None →
   handle (Load_ob_type self) v1 = (t, v1) →
   handle (Load_enum_method_name t) v1 = (name, v1) →
   handle (PyObject_GetAttrString self name) v1 = (Some m, v2) →
   handle (PyTuple_New 0) v2 = (None, v3) →
   ∃ rest,
     calls_of handle (PyComEnumProviderTypeObject_iter self) v
     = ([PyIBase_iter self; PyErr_Occurred; Load_ob_type self;
         Load_enum_method_name t; PyObject_GetAttrString self name;
         PyTuple_New 0; PyObject_Call m None None; Py_DECREF (Some m);
         Py_DECREF None]
        ++ rest)%list).
Proof.
  split.
  - intros Hhook Hclean Hattr Hargs.
    unfold calls_of, PyComEnumTypeObject_iternext. run_known.
    destruct (handle (PyObject_Call m None None) w3) as [result w4]. cbn.
    destruct (handle (Py_DECREF (Some m)) w4) as [[] w5]. cbn.
    destruct (handle (Py_DECREF None) w5) as [[] w6]. cbn.
    destruct (run handle _ w6) as [[o w7] tr]. cbn. by eexists.
  - intros Hhook Hclean Hty Hname Hattr Hargs.
    unfold calls_of, PyComEnumProviderTypeObject_iter. run_known.
    destruct (handle (PyObject_Call m None None) v3) as [result v4]. cbn.
    destruct (handle (Py_DECREF (Some m)) v4) as [[] v5]. cbn.
    destruct (handle (Py_DECREF None) v5) as [[] v6]. cbn.
    destruct (run handle _ v6) as [[o v7] tr]. cbn. by eexists.
Qed.

(** X8: when the lookup of the configured method fails, the begin-iteration
    of the provider type returns NULL in the state the lookup left; nothing
    is called after the lookup. *)
Theorem provider_lookup_failure_propagates
    (self t : ptr) (name : string) (w w1 w2 : W) :
  handle (PyIBase_iter self) w = (None, w1) →
  pending w1 = None →
  handle (Load_ob_type self) w1 = (t, w1) →
  handle (Load_enum_method_name t) w1 = (name, w1) →
  handle (PyObject_GetAttrString self name) w1 = (None, w2) →
  run handle (PyComEnumProviderTypeObject_iter self) w
  = (Returned None, w2,
     [PyIBase_iter self; PyErr_Occurred; Load_ob_type self;
      Load_enum_method_name t; PyObject_GetAttrString self name]).
Proof.
  intros Hhook Hclean Hty Hname Hattr.
  unfold PyComEnumProviderTypeObject_iter. by run_known.
Qed.

(** X9: on the path where the configured method, called with the argument
    tuple that was allocated for it, returned the None object, the
    begin-iteration of the provider type releases that reference first.
    If the empty tuple cannot be allocated it returns NULL at once. If it
    can, whatever [PySeqIter_New] gives, an iterator or NULL, is returned
    after the tuple has been released. *)
Theorem provider_None_path
    (self t m args : ptr) (name : string) (w w1 w2 w3 w4 w7 : W)
    (dummy : option ptr) :
  handle (PyIBase_iter self) w = (None, w1) →
  pending w1 = None →
  handle (Load_ob_type self) w1 = (t, w1) →
  handle (Load_enum_method_name t) w1 = (name, w1) →
  handle (PyObject_GetAttrString self name) w1 = (Some m, w2) →
  handle (PyTuple_New 0) w2 = (Some args, w3) →
  handle (PyObject_Call m (Some args) None) w3 = (Some Py_None, w4) →
  handle (PyTuple_New 0)
    (handle (Py_DECREF (Some Py_None))
       (handle (Py_DECREF (Some args))
          (handle (Py_DECREF (Some m)) w4).2).2).2
  = (dummy, w7) →
  let prefix :=
    [PyIBase_iter self; PyErr_Occurred; Load_ob_type self;
     Load_enum_method_name t; PyObject_GetAttrString self name;
     PyTuple_New 0; PyObject_Call m (Some args) None;
     Py_DECREF (Some m); Py_DECREF (Some args); Py_DECREF (Some Py_None);
     PyTuple_New 0] in
  match dummy with
  | None =>
      run handle (PyComEnumProviderTypeObject_iter self) w
      = (Returned None, w7, prefix)
  | Some d =>
      ∀ it w8,
        handle (PySeqIter_New d) w7 = (it, w8) →
        result_of handle (PyComEnumProviderTypeObject_iter self) w
        = Returned it ∧
        calls_of handle (PyComEnumProviderTypeObject_iter self) w
        = (prefix ++ [PySeqIter_New d; Py_DECREF (Some d)])%list
  end.
Proof.
  intros Hhook Hclean Hty Hname Hattr Hargs Hcall Hdummy prefix.
  subst prefix.
  unfold result_of, calls_of, PyComEnumProviderTypeObject_iter.
  run_known.
  destruct (handle (Py_DECREF (Some m)) w4) as [[] w5]. cbn in *.
  destruct (handle (Py_DECREF (Some args)) w5) as [[] w6]. cbn in *.
  rewrite bool_decide_eq_true_2 by done. cbn.
  destruct (handle (Py_DECREF (Some Py_None)) w6) as [[] w6']. cbn in *.
  run_known. destruct dummy as [d|]; cbn; [|done].
  intros it w8 Hit. run_known.
  destruct (handle (Py_DECREF (Some d)) w8) as [[] w9]. done.
Qed.
End MoreOnAnyRuntime.

(** ** Further properties on the reference runtime *)

Section MoreOnReferenceRuntime.
Context `{cfg : PyConfig}.

Lemma enum_instance_grows w w' e cur :
  enum_instance w e cur → grows w w' → enum_instance w' e cur.
Proof.
  intros (t & name & pBase & typeSize & ml & thector & def
          & He & Ht & Hfind & Hmeth & _) [Hsub Hfresh].
  exists t, name, pBase, typeSize, ml, thector, def.
  repeat split; try done; by eapply lookup_weaken.
Qed.

Lemma enum_instance_is_iterator w self cur :
  Py_TPFLAGS_HAVE_ITER ≠ 0 →
  enum_instance w self cur →
  rt_PyIter_Check self w = true.
Proof.
  intros Hbit (t & name & pBase & typeSize & ml & thector & def
               & Hself & Ht & _).
  unfold rt_PyIter_Check, type_at. rewrite Hself, Ht. cbn.
  unfold PyType_HasFeature. cbn. rewrite Z.land_diag.
  by destruct (Z.eqb_spec Py_TPFLAGS_HAVE_ITER 0).
Qed.

(** On an enumerator instance, the host's advance is the advance of this
    file followed by the clearing of the stop condition. *)
Lemma PyIter_Next_enum w self cur :
  enum_instance w self cur →
  rt_PyIter_Next self w
  = let '(r, w1, _) := run runtime (PyComEnumTypeObject_iternext self) w in
    match r with
    | Returned None =>
        if bool_decide (curexc_type w1 = Some PyExc_StopIteration)
        then (r, PyErr_Clear w1) else (r, w1)
    | _ => (r, w1)
    end.
Proof.
  intros (t & name & pBase & typeSize & ml & thector & def
          & Hself & Ht & _).
  unfold rt_PyIter_Next, type_at. rewrite Hself, Ht. cbn -[run PyComEnumTypeObject_iternext PyComEnumTypeObject_iter
         PyComEnumProviderTypeObject_iter].
  by destruct (run runtime (PyComEnumTypeObject_iternext self) w)
    as [[r w1] tr].
Qed.

Lemma collect_items self items : ∀ w fuel,
  enum_instance w self (Elem <$> items) →
  curexc_type w = None →
  (length items < fuel)%nat →
  ∃ w', collect fuel self w = (Some items, w') ∧
        curexc_type w' = None ∧ enum_instance w' self [].
Proof.
  induction items as [|x items IH]; intros w fuel Hinst Hclean Hfuel;
    (destruct fuel as [|fuel]; [cbn in Hfuel; lia|]); cbn [collect].
  - rewrite (PyIter_Next_enum _ _ _ Hinst).
    destruct (advance_end w self Hinst Hclean) as (w' & tr & -> & Hi & Hs).
    rewrite bool_decide_eq_true_2 by done.
    exists (PyErr_Clear w'). split; [done|]. split; [done|].
    by apply enum_instance_clear.
  - rewrite (PyIter_Next_enum _ _ _ Hinst).
    destruct (advance_item w self x _ Hinst Hclean)
      as (w' & tr & -> & Hi & Hc).
    destruct (IH w' fuel Hi Hc) as (w'' & -> & Hc' & Hi').
    { cbn in Hfuel. lia. }
    by exists w''.
Qed.

(** X10: an enumerator instance hands out all the items of its native
    cursor, one per advance and in order, and after them every further
    advance signals exhaustion, for any number of items and of further
    advances, whether or not the consumer clears the stop condition. *)
Theorem enumerator_yields_all_items
    (w : World) (self : ptr) (items : list ptr) (k : nat) (clear : bool) :
  enum_instance w self (Elem <$> items) →
  curexc_type w = None →
  (advances clear (length items + k) self w).1
  = (((λ x, (Returned (Some x), None)) <$> items)
     ++ replicate k (Returned None, Some PyExc_StopIteration))%list.
Proof. apply advances_items. Qed.

(** X11: an advance entered with an error pending takes nothing from the
    native cursor: it returns NULL, the state is unchanged, and once the
    error is cleared the next advance yields the item that was due. *)
Theorem pending_error_does_not_consume
    (w : World) (self x exc : ptr) (cur : list Elt) :
  enum_instance w self (Elem x :: cur) →
  curexc_type w = Some exc →
  run runtime (PyComEnumTypeObject_iternext self) w
  = (Returned None, w, [PyIBase_iter self; PyErr_Occurred]) ∧
  result_of runtime (PyComEnumTypeObject_iternext self) (PyErr_Clear w)
  = Returned (Some x).
Proof.
  intros Hinst Hpending. split.
  - by eapply advance_pending.
  - destruct (advance_item (PyErr_Clear w) self x cur) as (w' & tr & Hrun & _).
    + by apply enum_instance_clear.
    + done.
    + unfold result_of. by rewrite Hrun.
Qed.

(** X12: the host's iteration over an enumerator instance. With the
    capability bit non-zero, [PyObject_GetIter] gives the instance itself,
    unchanged, and a loop of [PyIter_Next] over it collects exactly the
    items of the native cursor, in order, and ends with no error pending
    and the cursor at its end. *)
Theorem iterating_enumerator_collects_items
    (w : World) (self : ptr) (items : list ptr) (fuel : nat) :
  Py_TPFLAGS_HAVE_ITER ≠ 0 →
  enum_instance w self (Elem <$> items) →
  curexc_type w = None →
  (length items < fuel)%nat →
  rt_PyObject_GetIter self w = (Returned (Some self), w) ∧
  ∃ w', collect fuel self w = (Some items, w') ∧
        curexc_type w' = None ∧ enum_instance w' self [].
Proof.
  intros Hbit Hinst Hclean Hfuel. split; [|by apply collect_items].
  pose proof (enum_instance_is_iterator w self _ Hbit Hinst) as Hcheck.
  pose proof (begin_enum w self _ Hinst Hclean) as Hbegin.
  destruct Hinst as (t & name & pBase & typeSize & ml & thector & def
                     & Hself & Ht & _).
  unfold rt_PyObject_GetIter, type_at. rewrite Hself, Ht. cbn.
  unfold PyType_HasFeature. cbn. rewrite Z.land_diag.
  destruct (Z.eqb_spec Py_TPFLAGS_HAVE_ITER 0) as [|_]; [done|].
  cbn -[run PyComEnumTypeObject_iternext PyComEnumTypeObject_iter
         PyComEnumProviderTypeObject_iter]. rewrite Hbegin. by rewrite Hcheck.
Qed.

(** X13: when the native cursor fails at some position, the host's loop
    collects the items before it and ends with the error of that position
    pending, the cursor standing behind the position; the error must not be
    the stop condition, which the loop would take for exhaustion. *)
Theorem iteration_stops_at_failure
    (self exc : ptr) (items : list ptr) (rest : list Elt) :
  exc ≠ PyExc_StopIteration →
  ∀ (w : World) (fuel : nat),
    enum_instance w self ((Elem <$> items) ++ Broken exc :: rest) →
    curexc_type w = None →
    (length items < fuel)%nat →
    ∃ w', collect fuel self w = (Some items, w') ∧
          curexc_type w' = Some exc ∧ enum_instance w' self rest.
Proof.
  intros Hexc. induction items as [|x items IH];
    intros w fuel Hinst Hclean Hfuel;
    (destruct fuel as [|fuel]; [cbn in Hfuel; lia|]); cbn [collect].
  - rewrite (PyIter_Next_enum _ _ _ Hinst).
    destruct (advance_broken w self exc rest Hinst Hclean)
      as (w' & tr & -> & Hi & He).
    rewrite bool_decide_eq_false_2 by congruence.
    by exists w'.
  - rewrite (PyIter_Next_enum _ _ _ Hinst).
    destruct (advance_item w self x _ Hinst Hclean)
      as (w' & tr & -> & Hi & Hc).
    destruct (IH w' fuel Hi Hc) as (w'' & -> & Hc' & Hi').
    { cbn in Hfuel. lia. }
    by exists w''.
Qed.

(** The begin-iteration of a provider instance whose method answers with an
    object other than the None object: the state only grows. *)
Lemma provider_returns_object_grows (w : World) (self p : ptr) (M : string) :
  provider_instance w self M (Method_Return p) →
  curexc_type w = None →
  p ≠ Py_None →
  ∃ w' tr,
    run runtime (PyComEnumProviderTypeObject_iter self) w
    = (Returned (Some p), w', tr) ∧
    grows w w' ∧ curexc_type w' = None.
Proof.
  intros (t & name & pBase & typeSize & ml & thector & def & cur
          & Hself & Ht & Hfind & Hmeth & Hnone & Hfresh) Hclean Hp.
  pose proof (fresh_above_lt _ _ _ Hfresh Hself) as Hlt1.
  pose proof (fresh_above_lt _ _ _ Hfresh Ht) as Hlt2.
  unfold PyComEnumProviderTypeObject_iter.
  repeat (rt_step; rewrite ?Hself, ?Hclean, ?Ht, ?Hfind, ?Hmeth).
  rewrite bool_decide_eq_false_2 by congruence.
  eexists _, _. split; [reflexivity|]. split; [|done].
  split; cbn -[lookup insert].
  - apply insert_subseteq_r; [apply Hfresh; lia|].
    apply insert_subseteq. apply Hfresh. lia.
  - intros q Hq. cbn -[lookup insert] in *. heap_simpl. apply Hfresh. lia.
Qed.

Lemma provider_type_dispatch w self M f :
  Py_TPFLAGS_HAVE_ITER ≠ 0 →
  provider_instance w self M f →
  rt_PyObject_GetIter self w
  = let '(r, w1, _) :=
      run runtime (PyComEnumProviderTypeObject_iter self) w in
    match r with
    | Returned (Some res) =>
        if rt_PyIter_Check res w1 then (Returned (Some res), w1)
        else (Returned None, raise PyExc_TypeError w1)
    | _ => (r, w1)
    end.
Proof.
  intros Hbit (t & name & pBase & typeSize & ml & thector & def & cur
               & Hself & Ht & _).
  unfold rt_PyObject_GetIter, type_at. rewrite Hself, Ht.
  cbn -[run PyComEnumTypeObject_iternext PyComEnumTypeObject_iter
         PyComEnumProviderTypeObject_iter].
  unfold PyType_HasFeature. cbn. rewrite Z.land_diag.
  by destruct (Z.eqb_spec Py_TPFLAGS_HAVE_ITER 0).
Qed.

(** X14: the begin-iteration of a provider instance looks up the method
    under the name its type was constructed with; when the chain of the
    type binds no such name, it returns NULL with [AttributeError] pending
    and invokes nothing. *)
Theorem provider_method_missing
    (w : World) (self t : ptr) (name M : string) (pBase : option ptr)
    (typeSize : Z) (ml : list PyMethodDef) (thector : N) (cur : list Elt) :
  heap w !! self = Some (OIBase t Hook_null cur) →
  heap w !! t
  = Some (OComEnumProviderType
            (PyComEnumProviderTypeObject_ctor name pBase typeSize ml
               thector M)) →
  lookup_chain (chain_fuel w) (heap w) (Some (chain_of t)) M = Some None →
  curexc_type w = None →
  run runtime (PyComEnumProviderTypeObject_iter self) w
  = (Returned None, raise PyExc_AttributeError w,
     [PyIBase_iter self; PyErr_Occurred; Load_ob_type self;
      Load_enum_method_name t; PyObject_GetAttrString self M]).
Proof.
  intros Hself Ht Hlookup Hclean.
  unfold PyComEnumProviderTypeObject_iter.
  repeat (cbn -[lookup insert lookup_chain chain_fuel]; rt_unfold;
          rewrite ?Hself, ?Hclean, ?Ht, ?Hlookup).
  done.
Qed.

(** X15: when the configured method of a provider instance raises, the
    begin-iteration returns NULL with that exception pending, and makes no
    tuple and no iterator. *)
Theorem provider_method_failure_propagates
    (w : World) (self exc : ptr) (M : string) :
  provider_instance w self M (Method_Raise exc) →
  curexc_type w = None →
  result_of runtime (PyComEnumProviderTypeObject_iter self) w
  = Returned None ∧
  curexc_type (state_of runtime (PyComEnumProviderTypeObject_iter self) w)
  = Some exc ∧
  ∀ seq, PySeqIter_New seq
           ∉ calls_of runtime (PyComEnumProviderTypeObject_iter self) w.
Proof.
  intros (t & name & pBase & typeSize & ml & thector & def & cur
          & Hself & Ht & Hfind & Hmeth & Hnone & Hfresh) Hclean.
  pose proof (fresh_above_lt _ _ _ Hfresh Hself) as Hlt1.
  pose proof (fresh_above_lt _ _ _ Hfresh Ht) as Hlt2.
  unfold result_of, state_of, calls_of, PyComEnumProviderTypeObject_iter.
  repeat (rt_step; rewrite ?Hself, ?Hclean, ?Ht, ?Hfind, ?Hmeth).
  rewrite bool_decide_eq_false_2 by done. cbn.
  split; [done|]. split; [done|].
  intros seq. rewrite !not_elem_of_cons.
  repeat split; try done. apply not_elem_of_nil.
Qed.

(** X16: a sentinel returned by the configured method is no iterator, and
    nothing in this file checks it: the host's [PyObject_GetIter] on the
    provider instance gets the sentinel back from the begin-iteration and
    turns it into a [TypeError]. *)
Theorem provider_sentinel_is_rejected_by_host
    (w : World) (self p : ptr) (M : string) :
  Py_TPFLAGS_HAVE_ITER ≠ 0 →
  provider_instance w self M (Method_Return p) →
  curexc_type w = None →
  heap w !! p = Some PyOleEmpty_ctor ∨ heap w !! p = Some PyOleMissing_ctor
  ∨ heap w !! p = Some PyOleArgNotFound_ctor →
  result_of runtime (PyComEnumProviderTypeObject_iter self) w
  = Returned (Some p) ∧
  ∃ w', rt_PyObject_GetIter self w = (Returned None, w') ∧
        curexc_type w' = Some PyExc_TypeError.
Proof.
  intros Hbit Hinst Hclean Hsentinel.
  assert (∃ tp, heap w !! p = Some (OPlain tp)) as [tp Hplain].
  { destruct Hsentinel as [H|[H|H]]; eexists; exact H. }
  assert (p ≠ Py_None) as Hp.
  { destruct Hinst as (? & ? & ? & ? & ? & ? & ? & ? & _ & _ & _ & _
                       & Hnone & _).
    intros ->. congruence. }
  destruct (provider_returns_object_grows w self p M Hinst Hclean Hp)
    as (w' & tr & Hrun & [Hsub _] & Hc).
  split; [unfold result_of; by rewrite Hrun|].
  rewrite (provider_type_dispatch w self M _ Hbit Hinst). rewrite Hrun.
  unfold rt_PyIter_Check.
  rewrite (lookup_weaken _ _ _ _ Hplain Hsub). by eexists.
Qed.

(** X17: the full path from a provider to the items. When the configured
    method answers with an enumerator instance, the host's
    [PyObject_GetIter] on the provider instance gives that enumerator, and
    the host's loop over it collects exactly the items of its native
    cursor, in order, ending with no error pending. *)
Theorem provider_hands_over_to_enumerator
    (w : World) (self e : ptr) (M : string) (items : list ptr) (fuel : nat) :
  Py_TPFLAGS_HAVE_ITER ≠ 0 →
  provider_instance w self M (Method_Return e) →
  enum_instance w e (Elem <$> items) →
  curexc_type w = None →
  (length items < fuel)%nat →
  ∃ w' w'',
    rt_PyObject_GetIter self w = (Returned (Some e), w') ∧
    collect fuel e w' = (Some items, w'') ∧
    curexc_type w'' = None.
Proof.
  intros Hbit Hprov Henum Hclean Hfuel.
  assert (e ≠ Py_None) as He.
  { destruct Hprov as (? & ? & ? & ? & ? & ? & ? & ? & _ & _ & _ & _
                       & Hnone & _).
    destruct Henum as (? & ? & ? & ? & ? & ? & ? & Hee & _).
    intros ->. congruence. }
  destruct (provider_returns_object_grows w self e M Hprov Hclean He)
    as (w' & tr & Hrun & Hgrows & Hc).
  pose proof (enum_instance_grows _ _ _ _ Henum Hgrows) as Henum'.
  destruct (collect_items e items w' fuel Henum' Hc Hfuel)
    as (w'' & Hcollect & Hc'' & _).
  exists w', w''. split; [|done].
  rewrite (provider_type_dispatch w self M _ Hbit Hprov). rewrite Hrun.
  by rewrite (enum_instance_is_iterator w' e _ Hbit Henum').
Qed.

(** X18: an instance of a type built by the plain descriptor constructor is
    not iterable: the constructor leaves the flags and both iteration slots
    zero, so the host's [PyObject_GetIter] fails with [TypeError] without
    calling anything, whatever the value of the capability bit. *)
Theorem plain_wrapper_is_not_iterable (w : World) (self : ptr) :
  plain_instance w self →
  rt_PyObject_GetIter self w = (Returned None, raise PyExc_TypeError w) ∧
  rt_PyIter_Check self w = false.
Proof.
  intros (t & name & pBase & typeSize & ml & thector & hook & cur
          & Hself & Ht).
  unfold rt_PyObject_GetIter, rt_PyIter_Check, type_at.
  rewrite Hself, Ht. cbn. unfold PyType_HasFeature. cbn.
  rewrite Z.land_0_l. done.
Qed.

(** X19: a provider instance is iterable but is no iterator: its type has
    the capability bit and a begin-iteration, and no advance, so the host's
    iterator check refuses it. *)
Theorem provider_instance_is_no_iterator
    (w : World) (self : ptr) (M : string) (f : PyCFunction) :
  provider_instance w self M f →
  rt_PyIter_Check self w = false ∧
  ∃ ty, type_at w (rt_Load_ob_type self w) = Some ty ∧
        tp_iter ty = Some FN_PyComEnumProviderTypeObject_iter ∧
        tp_iternext ty = None.
Proof.
  intros (t & name & pBase & typeSize & ml & thector & def & cur
          & Hself & Ht & _).
  unfold rt_PyIter_Check, rt_Load_ob_type, type_at.
  rewrite Hself. cbn. rewrite Ht. cbn.
  split; [by rewrite andb_false_r|]. by eexists.
Qed.
End MoreOnReferenceRuntime.

(** ** Further properties of the descriptors *)

Section MoreOnDescriptors.
Context `{cfg : PyConfig}.

(** X20: every descriptor, whichever of the three constructors built it and
    with whatever arguments, has the type signature of the template: the
    same type, item size, destructor, attribute, comparison and
    representation slots and the same base. *)
Theorem descriptors_share_type_signature
    (pBase : option ptr) (methodList : list PyMethodDef) (o : PyObject) :
  constructed pBase methodList o →
  ∃ t, as_PyTypeObject o = Some t ∧
       ob_type t = ob_type type_template ∧
       tp_itemsize t = tp_itemsize type_template ∧
       tp_dealloc t = Some FN_PyIBase_dealloc ∧
       tp_setattr t = Some FN_PyIBase_setattr ∧
       tp_compare t = Some FN_PyIBase_cmp ∧
       tp_repr t = Some FN_PyIBase_repr ∧
       tp_getattro t = Some FN_PyIBase_getattro ∧
       tp_doc t = None ∧
       tp_base t = tp_base type_template.
Proof. destruct 1; eexists; repeat split; reflexivity. Qed.

Lemma built_chain_index_unique (h : gmap N PyObject) ds :
  built_chain h ds →
  ∀ i j a ml ml',
    ds !! i = Some (a, ml) → ds !! j = Some (a, ml') → i = j.
Proof.
  intros Hb. induction i as [|i IH]; intros j a ml ml' Hi Hj.
  - destruct j as [|j]; [done|].
    destruct (Hb _ _ _ Hi) as (o & Ho & Hc).
    destruct (Hb _ _ _ Hj) as (o' & Ho' & Hc').
    assert (o' = o) as -> by congruence.
    destruct (constructed_chain _ _ _ Hc) as (t & Ht & Hch & _).
    destruct (constructed_chain _ _ _ Hc') as (t' & Ht' & Hch' & _).
    assert (t' = t) as -> by congruence.
    destruct (base_of_chain _ _ _ _ Hj) as (a' & ml0 & _ & Hbase).
    rewrite Hbase in Hch'. rewrite Hch in Hch'. discriminate.
  - destruct (Hb _ _ _ Hi) as (o & Ho & Hc).
    destruct (Hb _ _ _ Hj) as (o' & Ho' & Hc').
    assert (o' = o) as -> by congruence.
    destruct (constructed_chain _ _ _ Hc) as (t & Ht & Hch & _).
    destruct (constructed_chain _ _ _ Hc') as (t' & Ht' & Hch' & _).
    assert (t' = t) as -> by congruence.
    destruct (base_of_chain _ _ _ _ Hi) as (a1 & ml1 & Hi1 & Hbase1).
    rewrite Hbase1 in Hch.
    destruct j as [|j].
    { cbn in Hch'. rewrite Hch in Hch'. discriminate. }
    destruct (base_of_chain _ _ _ _ Hj) as (a2 & ml2 & Hj2 & Hbase2).
    rewrite Hbase2 in Hch'. rewrite Hch in Hch'.
    injection Hch' as _ <-.
    f_equal. by eapply IH.
Qed.

(** X21: a chain built by the constructors has no cycle: the descriptors of
    a chain sit at pairwise different addresses, because the root's link is
    null and every other link points to the descriptor before. *)
Theorem built_chain_has_no_cycle
    (h : gmap N PyObject) (ds : list (N * list PyMethodDef)) :
  built_chain h ds → NoDup (fst <$> ds).
Proof.
  intros Hb. apply NoDup_alt. intros i j a Hi Hj.
  rewrite list_lookup_fmap in Hi, Hj.
  destruct (ds !! i) as [[a1 ml1]|] eqn:Ei; [|done].
  destruct (ds !! j) as [[a2 ml2]|] eqn:Ej; [|done].
  simplify_eq/=. by eapply built_chain_index_unique.
Qed.

(** X22: deriving a type extends the chain and disturbs nothing. A
    descriptor constructed at a free address with the leaf of a chain as its
    base makes the chain one longer, and every lookup from the types that
    were there gives what it gave before. *)
Theorem deriving_extends_chain
    (h : gmap N PyObject) (ds : list (N * list PyMethodDef))
    (a : ptr) (ml : list PyMethodDef) (o : PyObject) :
  built_chain h ds →
  h !! a = None →
  constructed (base_of (ds ++ [(a, ml)]) (length ds)) ml o →
  built_chain (<[a := o]> h) (ds ++ [(a, ml)]) ∧
  ∀ j aj mlj (fuel : nat) name,
    ds !! j = Some (aj, mlj) → (j < fuel)%nat →
    lookup_chain fuel (<[a := o]> h) (Some (chain_of aj)) name
    = lookup_chain fuel h (Some (chain_of aj)) name.
Proof.
  intros Hb Hfree Hc.
  assert (Hb' : built_chain (<[a := o]> h) (ds ++ [(a, ml)])).
  { intros i ai mli Hi.
    destruct (decide (i < length ds)%nat) as [Hlt|Hge].
    - rewrite lookup_app_l in Hi by done.
      destruct (Hb _ _ _ Hi) as (oi & Hoi & Hci).
      exists oi. split.
      + rewrite lookup_insert_ne; [done|]. intros ->. congruence.
      + destruct i as [|i]; [done|]. cbn in *.
        rewrite lookup_app_l by lia. done.
    - rewrite lookup_app_r in Hi by lia.
      destruct (i - length ds)%nat as [|k] eqn:Ek; [|by destruct k].
      assert (i = length ds) as -> by lia. simplify_eq/=.
      exists o. split; [apply lookup_insert_eq | done]. }
  split; [done|].
  intros j aj mlj fuel name Hj Hfuel.
  rewrite (lookup_chain_built _ _ name Hb' j aj mlj fuel); [|by apply lookup_app_l_Some|done].
  rewrite (lookup_chain_built _ _ name Hb j aj mlj fuel Hj Hfuel).
  do 2 f_equal. rewrite fmap_app, take_app_le; [done|].
  rewrite length_fmap. apply lookup_lt_Some in Hj. lia.
Qed.
End MoreOnDescriptors.

(** ** The menu group widths *)

Open Scope list_scope.

Lemma convert_i_int (w : World) (p : ptr) (v : Z) :
  heap w !! p = Some (OInt v) →
  INT_MIN ≤ v ≤ INT_MAX →
  convert_i w (Some p) = inl v.
Proof.
  intros Hp [Hlo Hhi]. unfold convert_i. cbn. rewrite Hp.
  rewrite (proj2 (Z.ltb_ge _ _)) by done.
  rewrite (proj2 (Z.ltb_ge _ _)) by done. done.
Qed.

(** Parsing a run of good integers stores them one after the other and goes
    on with what follows. *)
Lemma parse_ints_prefix (w : World) (ps : list N) (vs : list Z) :
  Forall2 (λ p v, heap w !! p = Some (OInt v) ∧ INT_MIN ≤ v ≤ INT_MAX)
    ps vs →
  ∀ (tail : list (option ptr)) (done todo : list Z),
    (length vs ≤ length todo)%nat →
    parse_ints w ((Some <$> ps) ++ tail) (length done) (done ++ todo)
    = parse_ints w tail (length done + length vs)
        (done ++ vs ++ drop (length vs) todo).
Proof.
  induction 1 as [|p v ps vs [Hp Hv] _ IH]; intros tail done todo Hlen.
  - cbn. by rewrite Nat.add_0_r.
  - cbn [fmap list_fmap app parse_ints].
    change ((Some p :: (Some <$> ps)) ++ tail)%list
      with (Some p :: ((Some <$> ps) ++ tail))%list.
    cbn [parse_ints]. rewrite (convert_i_int w p v Hp Hv).
    destruct todo as [|t todo]; [cbn in Hlen; lia|].
    replace (<[length done := v]> (done ++ t :: todo))
      with ((done ++ [v]) ++ todo)%list.
    2:{ rewrite <- (Nat.add_0_r (length done)) at 1.
        rewrite insert_app_r. cbn. by rewrite <- app_assoc. }
    replace (S (length done)) with (length (done ++ [v])%list)
      by (rewrite length_app; cbn; lia).
    rewrite IH by (cbn in Hlen; lia).
    rewrite length_app. cbn [length drop].
    rewrite <- app_assoc. cbn.
    f_equal. lia.
Qed.

(** X23: the two conversions are inverse on every structure: the tuple that
    [PyObject_FromOLEMENUGROUPWIDTHS] builds, fed to
    [PyObject_AsOLEMENUGROUPWIDTHS], is accepted and overwrites any
    structure with the six widths it was built from; neither sets an
    error. *)
Theorem widths_round_trip (w : World) (s s0 : OLEMENUGROUPWIDTHS) :
  well_formed_widths s →
  length (width s0) = 6%nat →
  ∃ p w1,
    PyObject_FromOLEMENUGROUPWIDTHS (Some s) w = (Some p, w1) ∧
    curexc_type w1 = curexc_type w ∧
    PyObject_AsOLEMENUGROUPWIDTHS p s0 w1 = (true, s, w1).
Proof.
  intros [Hlen Hrange] Hlen0.
  destruct s as [ws]. cbn in *.
  do 7 (destruct ws as [|? ws]; try discriminate).
  unfold PyObject_FromOLEMENUGROUPWIDTHS, rt_Py_BuildValue_ints, width_at.
  cbn [nth width].
  eexists _, _. split; [reflexivity|]. split; [done|].
  rewrite !Forall_cons in Hrange.
  destruct Hrange as (R0 & R1 & R2 & R3 & R4 & R5 & _).
  unfold PyObject_AsOLEMENUGROUPWIDTHS, rt_PyArg_ParseTuple_ints.
  cbn -[lookup insert parse_ints]. rewrite lookup_insert_eq.
  rewrite bool_decide_eq_true_2 by done.
  destruct s0 as [out]. cbn [width] in *.
  match goal with
  | |- context [parse_ints ?u (?a :: ?l) _ _] =>
      pose proof (parse_ints_prefix u
        [brk w; N.succ (brk w); N.succ (N.succ (brk w));
         N.succ (N.succ (N.succ (brk w)));
         N.succ (N.succ (N.succ (N.succ (brk w))));
         N.succ (N.succ (N.succ (N.succ (N.succ (brk w)))))]
        [z; z0; z1; z2; z3; z4]) as Hparse
  end.
  specialize (Hparse
    ltac:(repeat (constructor;
                  [split; [cbn -[lookup insert]; heap_simpl; done | done]|]);
          constructor)
    [] [] out).
  cbn [length app Nat.add fmap list_fmap] in Hparse.
  rewrite Hparse by lia.
  cbn [parse_ints length].
  rewrite (drop_ge out) by lia. reflexivity.
Qed.

(** X24: a NULL structure becomes the None object, with a new reference and
    nothing allocated; the None object is not accepted back: it is no
    tuple, the parse fails with [SystemError] and the structure is left as
    it was. *)
Theorem null_widths_do_not_round_trip (w : World) (s : OLEMENUGROUPWIDTHS) :
  PyObject_FromOLEMENUGROUPWIDTHS None w = (Some Py_None, w) ∧
  (heap w !! Py_None = Some ONone →
   PyObject_AsOLEMENUGROUPWIDTHS Py_None s w
   = (false, s, raise PyExc_SystemError w)).
Proof.
  split; [reflexivity|]. intros Hnone.
  unfold PyObject_AsOLEMENUGROUPWIDTHS, rt_PyArg_ParseTuple_ints.
  rewrite Hnone. by destruct s.
Qed.

(** X25: a tuple that does not have exactly six items is refused before any
    item is converted: the result is false, [TypeError] is set and the
    structure is left as it was. *)
Theorem widths_of_wrong_length_are_refused
    (w : World) (ob : ptr) (items : list (option ptr))
    (s : OLEMENUGROUPWIDTHS) :
  heap w !! ob = Some (OTuple items) →
  length items ≠ 6%nat →
  PyObject_AsOLEMENUGROUPWIDTHS ob s w
  = (false, s, raise PyExc_TypeError w).
Proof.
  intros Hob Hlen.
  unfold PyObject_AsOLEMENUGROUPWIDTHS, rt_PyArg_ParseTuple_ints.
  rewrite Hob. rewrite bool_decide_eq_false_2 by done. by destruct s.
Qed.

(** X26: a six-tuple whose item at some position cannot be converted makes
    the conversion fail with the structure half written: the widths before
    that position hold the values of the tuple, the widths from that
    position on are left as they were, and the error of the conversion is
    pending. *)
Theorem failed_conversion_leaves_widths_half_written
    (w : World) (ob : ptr) (ps : list N) (vs : list Z) (bad : option ptr)
    (rest : list (option ptr)) (exc : ptr) (s : OLEMENUGROUPWIDTHS) :
  heap w !! ob = Some (OTuple ((Some <$> ps) ++ bad :: rest)) →
  length ((Some <$> ps) ++ bad :: rest) = 6%nat →
  Forall2 (λ p v, heap w !! p = Some (OInt v) ∧ INT_MIN ≤ v ≤ INT_MAX)
    ps vs →
  convert_i w bad = inr exc →
  length (width s) = 6%nat →
  PyObject_AsOLEMENUGROUPWIDTHS ob s w
  = (false, {| width := vs ++ drop (length vs) (width s) |}, raise exc w).
Proof.
  intros Hob Hlen Hgood Hbad Hs.
  unfold PyObject_AsOLEMENUGROUPWIDTHS, rt_PyArg_ParseTuple_ints.
  rewrite Hob. rewrite bool_decide_eq_true_2 by done.
  pose proof (Forall2_length _ _ _ Hgood) as Hl.
  rewrite length_app, length_fmap in Hlen. cbn in Hlen.
  pose proof (parse_ints_prefix w ps vs Hgood (bad :: rest) [] (width s))
    as Hparse.
  cbn [length app Nat.add] in Hparse. rewrite Hparse by lia.
  cbn [parse_ints]. by rewrite Hbad.
Qed.

(** ** The further properties at concrete inputs *)

Lemma iternext_defers_to_hook_witness :
  let w := provider_world (Hook_value 50%N) (Method_Return Py_None) in
  run runtime (PyComEnumTypeObject_iternext 108%N) w
  = (Returned (Some 50%N), w, [PyIBase_iter 108%N]).
Proof.
  intros w.
  apply (iternext_defers_to_hook (rt := reference_runtime)
           108%N w w (Some 50%N)).
  - reflexivity.
  - left. discriminate.
Defined.

Lemma iter_without_entry_check_witness :
  let w := raise PyExc_TypeError (enum_world Hook_null [Elem 50%N]) in
  run runtime (@PyComEnumTypeObject_iter release_build 101%N) w
  = (Returned None, w, [PyIBase_iter 101%N; PyErr_Occurred]).
Proof.
  intros w.
  apply (@iter_without_entry_check release_build World reference_runtime
           101%N w w None).
  - reflexivity.
  - reflexivity.
  - right. discriminate.
Defined.

Lemma iter_returns_new_reference_to_self_witness :
  let w := enum_world Hook_null [Elem 50%N] in
  result_of runtime (@PyComEnumTypeObject_iter debug_build 101%N) w
  = Returned (Some 101%N) ∧
  filter is_INCREF
    (calls_of runtime (@PyComEnumTypeObject_iter debug_build 101%N) w)
  = [Py_INCREF 101%N] ∧
  filter is_DECREF
    (calls_of runtime (@PyComEnumTypeObject_iter debug_build 101%N) w) = [].
Proof.
  intros w.
  apply (@iter_returns_new_reference_to_self debug_build World
           reference_runtime 101%N w w).
  - right. reflexivity.
  - reflexivity.
  - reflexivity.
Defined.

Lemma iternext_empty_fetch_stops_witness :
  let w := enum_world Hook_null [] in
  result_of runtime (PyComEnumTypeObject_iternext 101%N) w = Returned None ∧
  curexc_type (state_of runtime (PyComEnumTypeObject_iternext 101%N) w)
  = Some PyExc_StopIteration ∧
  PyErr_SetNone PyExc_StopIteration
    ∈ calls_of runtime (PyComEnumTypeObject_iternext 101%N) w.
Proof.
  intros w.
  destruct (@iternext_empty_fetch_stops World reference_runtime
              101%N 200%N 202%N 203%N w w _ _ _ _
              eq_refl eq_refl eq_refl eq_refl eq_refl eq_refl)
    as (Hr & Hp & Hc).
  split; [exact Hr|]. split; [exact (eq_trans Hp eq_refl)|].
  change (calls_of runtime (PyComEnumTypeObject_iternext 101%N) w)
    with (calls_of handle (PyComEnumTypeObject_iternext 101%N) w).
  rewrite Hc. rewrite !elem_of_cons. tauto.
Defined.

Lemma iternext_returns_first_item_only_witness :
  let w := enum_world Hook_null [Elem 50%N; Elem 51%N] in
  result_of runtime (PyComEnumTypeObject_iternext 101%N) w
  = Returned (Some 50%N) ∧
  calls_of runtime (PyComEnumTypeObject_iternext 101%N) w
  = [PyIBase_iter 101%N; PyErr_Occurred;
     PyObject_GetAttrString 101%N "Next"; Py_BuildValue_i 1;
     PyObject_Call 200%N (Some 202%N) None; Py_DECREF (Some 200%N);
     Py_DECREF (Some 202%N); PySequence_Length 203%N;
     PySequence_GetItem 203%N 0; Py_DECREF (Some 203%N)].
Proof.
  intros w.
  destruct (@iternext_returns_first_item_only World reference_runtime
              101%N 200%N 202%N 203%N w w _ _ _ _ _ (Some 50%N) 1
              eq_refl eq_refl eq_refl eq_refl eq_refl eq_refl
              ltac:(discriminate) eq_refl)
    as (Hr & Hc).
  split; [exact Hr | exact Hc].
Defined.

Lemma iternext_releases_what_it_obtained_witness :
  let w := enum_world Hook_null [Elem 50%N] in
  filter is_INCREF (calls_of runtime (PyComEnumTypeObject_iternext 101%N) w)
  = [] ∧
  filter is_DECREF (calls_of runtime (PyComEnumTypeObject_iternext 101%N) w)
  = [Py_DECREF (Some 200%N); Py_DECREF (Some 202%N); Py_DECREF (Some 203%N)].
Proof.
  intros w.
  destruct (@iternext_releases_what_it_obtained World reference_runtime
              101%N w w eq_refl eq_refl (Some 200%N) _ eq_refl
              202%N _ (Some 203%N) _ eq_refl eq_refl)
    as [Hreleased Htaken].
  split; [exact Htaken | exact Hreleased].
Defined.

Lemma argument_allocation_is_unchecked_witness :
  let w := enum_world Hook_null [Elem 50%N] in
  let v := provider_world Hook_null (Method_Return Py_None) in
  (∃ rest,
     calls_of handle_no_memory (PyComEnumTypeObject_iternext 101%N) w
     = ([PyIBase_iter 101%N; PyErr_Occurred;
         PyObject_GetAttrString 101%N "Next"; Py_BuildValue_i 1;
         PyObject_Call 200%N None None; Py_DECREF (Some 200%N);
         Py_DECREF None] ++ rest)%list) ∧
  (∃ rest,
     calls_of handle_no_memory (PyComEnumProviderTypeObject_iter 106%N) v
     = ([PyIBase_iter 106%N; PyErr_Occurred; Load_ob_type 106%N;
         Load_enum_method_name 102%N; PyObject_GetAttrString 106%N "GetEnum";
         PyTuple_New 0; PyObject_Call 200%N None None;
         Py_DECREF (Some 200%N); Py_DECREF None] ++ rest)%list).
Proof.
  intros w v.
  destruct (@argument_allocation_is_unchecked World no_memory_runtime
              101%N 200%N 102%N "GetEnum" w w
              (handle_no_memory (PyObject_GetAttrString 101%N "Next") w).2
              (raise PyExc_MemoryError
                 (handle_no_memory (PyObject_GetAttrString 101%N "Next") w).2)
              v v v v) as [Hnext _].
  destruct (@argument_allocation_is_unchecked World no_memory_runtime
              106%N 200%N 102%N "GetEnum" w w w w v v
              (handle_no_memory (PyObject_GetAttrString 106%N "GetEnum") v).2
              (raise PyExc_MemoryError
                 (handle_no_memory
                    (PyObject_GetAttrString 106%N "GetEnum") v).2))
    as [_ Hprov].
  split.
  - exact (Hnext eq_refl eq_refl eq_refl eq_refl).
  - exact (Hprov eq_refl eq_refl eq_refl eq_refl eq_refl eq_refl).
Defined.

Lemma provider_lookup_failure_propagates_witness :
  run runtime (PyComEnumProviderTypeObject_iter 106%N) unbound_provider_world
  = (Returned None, raise PyExc_AttributeError unbound_provider_world,
     [PyIBase_iter 106%N; PyErr_Occurred; Load_ob_type 106%N;
      Load_enum_method_name 102%N; PyObject_GetAttrString 106%N "GetEnum"]).
Proof.
  apply (@provider_lookup_failure_propagates World reference_runtime
           106%N 102%N "GetEnum" unbound_provider_world
           unbound_provider_world);
    reflexivity.
Defined.

Lemma provider_None_path_witness :
  let w := provider_world Hook_null (Method_Return Py_None) in
  ∃ m args dummy it,
    result_of runtime (PyComEnumProviderTypeObject_iter 106%N) w
    = Returned (Some it) ∧
    calls_of runtime (PyComEnumProviderTypeObject_iter 106%N) w
    = [PyIBase_iter 106%N; PyErr_Occurred; Load_ob_type 106%N;
       Load_enum_method_name 102%N; PyObject_GetAttrString 106%N "GetEnum";
       PyTuple_New 0; PyObject_Call m (Some args) None;
       Py_DECREF (Some m); Py_DECREF (Some args);
       Py_DECREF (Some Py_None); PyTuple_New 0;
       PySeqIter_New dummy; Py_DECREF (Some dummy)].
Proof.
  intros w.
  destruct (runtime (PyObject_GetAttrString 106%N "GetEnum") w)
    as [m w2] eqn:Em.
  destruct m as [m|]; [|discriminate Em].
  destruct (runtime (PyTuple_New 0) w2) as [args w3] eqn:Eargs.
  destruct args as [args|]; [|discriminate Eargs].
  destruct (runtime (PyObject_Call m (Some args) None) w3)
    as [result w4] eqn:Ecall.
  assert (result = Some Py_None) as ->.
  { injection Em as <- <-. injection Eargs as <- <-.
    injection Ecall as <- _. reflexivity. }
  destruct (runtime (PyTuple_New 0)
              (runtime (Py_DECREF (Some Py_None))
                 (runtime (Py_DECREF (Some args))
                    (runtime (Py_DECREF (Some m)) w4).2).2).2)
    as [dummy w7] eqn:Edummy.
  destruct dummy as [dummy|]; [|discriminate Edummy].
  destruct (runtime (PySeqIter_New dummy) w7) as [it w8] eqn:Eit.
  assert (∃ i, it = Some i) as [i ->].
  { injection Em as <- <-. injection Eargs as <- <-.
    injection Ecall as <-. injection Edummy as <- <-.
    injection Eit as <- _. by eexists. }
  exists m, args, dummy, i.
  exact (@provider_None_path World reference_runtime
           106%N 102%N m args "GetEnum" w w w2 w3 w4 w7 (Some dummy)
           eq_refl eq_refl eq_refl eq_refl Em Eargs Ecall Edummy
           (Some i) w8 Eit).
Defined.

Lemma enumerator_yields_all_items_witness :
  (advances false 5 101%N
     (enum_world Hook_null [Elem 50%N; Elem 51%N; Elem 52%N])).1
  = [ (Returned (Some 50%N), None); (Returned (Some 51%N), None);
      (Returned (Some 52%N), None);
      (Returned None, Some PyExc_StopIteration);
      (Returned None, Some PyExc_StopIteration) ].
Proof.
  apply (@enumerator_yields_all_items debug_build
           (enum_world Hook_null [Elem 50%N; Elem 51%N; Elem 52%N])
           101%N [50%N; 51%N; 52%N] 2 false).
  - apply enum_world_instance.
  - reflexivity.
Defined.

Lemma pending_error_does_not_consume_witness :
  let w := raise PyExc_TypeError (enum_world Hook_null [Elem 50%N]) in
  run runtime (PyComEnumTypeObject_iternext 101%N) w
  = (Returned None, w, [PyIBase_iter 101%N; PyErr_Occurred]) ∧
  result_of runtime (PyComEnumTypeObject_iternext 101%N) (PyErr_Clear w)
  = Returned (Some 50%N).
Proof.
  intros w.
  apply (@pending_error_does_not_consume debug_build w 101%N 50%N
           PyExc_TypeError []).
  - exact (enum_world_instance [Elem 50%N]).
  - reflexivity.
Defined.

Lemma iterating_enumerator_collects_items_witness :
  let w := enum_world Hook_null [Elem 50%N; Elem 51%N] in
  @rt_PyObject_GetIter debug_build 101%N w = (Returned (Some 101%N), w) ∧
  ∃ w', collect 3 101%N w = (Some [50%N; 51%N], w') ∧
        curexc_type w' = None ∧
        @enum_instance debug_build w' 101%N [].
Proof.
  intros w.
  apply (@iterating_enumerator_collects_items debug_build w 101%N
           [50%N; 51%N] 3).
  - discriminate.
  - apply enum_world_instance.
  - reflexivity.
  - cbn. lia.
Defined.

Lemma iteration_stops_at_failure_witness :
  let w := enum_world Hook_null
             [Elem 50%N; Broken PyExc_TypeError; Elem 51%N] in
  ∃ w', collect 2 101%N w = (Some [50%N], w') ∧
        curexc_type w' = Some PyExc_TypeError ∧
        @enum_instance debug_build w' 101%N [Elem 51%N].
Proof.
  intros w.
  apply (@iteration_stops_at_failure debug_build 101%N PyExc_TypeError
           [50%N] [Elem 51%N]).
  - discriminate.
  - apply enum_world_instance.
  - reflexivity.
  - cbn. lia.
Defined.

Lemma provider_method_missing_witness :
  run runtime (PyComEnumProviderTypeObject_iter 106%N) unbound_provider_world
  = (Returned None, raise PyExc_AttributeError unbound_provider_world,
     [PyIBase_iter 106%N; PyErr_Occurred; Load_ob_type 106%N;
      Load_enum_method_name 102%N; PyObject_GetAttrString 106%N "GetEnum"]).
Proof.
  apply (@provider_method_missing debug_build unbound_provider_world
           106%N 102%N "PyIProvider" "GetEnum" None 24 [] 0%N []);
    reflexivity.
Defined.

Lemma provider_method_failure_propagates_witness :
  let w := provider_world Hook_null (Method_Raise PyExc_SystemError) in
  result_of runtime (PyComEnumProviderTypeObject_iter 106%N) w
  = Returned None ∧
  curexc_type (state_of runtime (PyComEnumProviderTypeObject_iter 106%N) w)
  = Some PyExc_SystemError ∧
  ∀ seq, PySeqIter_New seq
           ∉ calls_of runtime (PyComEnumProviderTypeObject_iter 106%N) w.
Proof.
  intros w.
  apply (@provider_method_failure_propagates debug_build w 106%N
           PyExc_SystemError "GetEnum").
  - apply provider_world_instance.
  - reflexivity.
Defined.

Lemma provider_sentinel_is_rejected_by_host_witness :
  let w := provider_world Hook_null (Method_Return 105%N) in
  result_of runtime (PyComEnumProviderTypeObject_iter 106%N) w
  = Returned (Some 105%N) ∧
  ∃ w', @rt_PyObject_GetIter debug_build 106%N w = (Returned None, w') ∧
        curexc_type w' = Some PyExc_TypeError.
Proof.
  intros w.
  apply (@provider_sentinel_is_rejected_by_host debug_build w 106%N 105%N
           "GetEnum").
  - discriminate.
  - apply provider_world_instance.
  - reflexivity.
  - left. reflexivity.
Defined.

Lemma handover_world_fresh cur : fresh_above (handover_world cur).
Proof.
  intros p Hp. cbn -[lookup insert] in *.
  rewrite !lookup_insert_ne by (unfold Py_None; lia). apply lookup_empty.
Qed.

Lemma handover_world_provider cur :
  @provider_instance debug_build (handover_world cur) 106%N "GetEnum"
    (Method_Return 101%N).
Proof.
  exists 102%N, "PyIProvider", None, 24,
    [ {| ml_name := "GetEnum"; ml_meth := Method_Return 101%N |} ], 0%N,
    {| ml_name := "GetEnum"; ml_meth := Method_Return 101%N |}, [].
  split; [reflexivity|]. split; [reflexivity|]. split; [reflexivity|].
  split; [reflexivity|]. split; [reflexivity|]. apply handover_world_fresh.
Qed.

Lemma handover_world_enum cur :
  @enum_instance debug_build (handover_world cur) 101%N cur.
Proof.
  exists 100%N, "PyIEnum", None, 24, [def_Next], 0%N, def_Next.
  split; [reflexivity|]. split; [reflexivity|]. split; [reflexivity|].
  split; [reflexivity|]. apply handover_world_fresh.
Qed.

Lemma provider_hands_over_to_enumerator_witness :
  let w := handover_world [Elem 50%N; Elem 51%N] in
  ∃ w' w'',
    @rt_PyObject_GetIter debug_build 106%N w = (Returned (Some 101%N), w') ∧
    collect 3 101%N w' = (Some [50%N; 51%N], w'') ∧
    curexc_type w'' = None.
Proof.
  intros w.
  apply (@provider_hands_over_to_enumerator debug_build w 106%N 101%N
           "GetEnum" [50%N; 51%N] 3).
  - discriminate.
  - apply handover_world_provider.
  - apply handover_world_enum.
  - reflexivity.
  - cbn. lia.
Defined.

Lemma plain_wrapper_is_not_iterable_witness :
  let w := provider_world Hook_null (Method_Return Py_None) in
  @rt_PyObject_GetIter debug_build 104%N w
  = (Returned None, raise PyExc_TypeError w) ∧
  @rt_PyIter_Check debug_build 104%N w = false.
Proof.
  intros w.
  apply (@plain_wrapper_is_not_iterable debug_build w 104%N).
  exists 100%N, "PyIUnknown", None, 16, ml_unknown, 0%N, Hook_null, [].
  split; reflexivity.
Defined.

Lemma provider_instance_is_no_iterator_witness :
  let w := provider_world Hook_null (Method_Return Py_None) in
  @rt_PyIter_Check debug_build 106%N w = false ∧
  ∃ ty, type_at w (rt_Load_ob_type 106%N w) = Some ty ∧
        tp_iter ty = Some FN_PyComEnumProviderTypeObject_iter ∧
        tp_iternext ty = None.
Proof.
  intros w.
  apply (@provider_instance_is_no_iterator debug_build w 106%N "GetEnum"
           (Method_Return Py_None)).
  apply provider_world_instance.
Defined.

Lemma descriptors_share_type_signature_witness :
  ∃ t,
    as_PyTypeObject
      (OComEnumProviderType
         (@PyComEnumProviderTypeObject_ctor debug_build "PyIProvider"
            (Some 101%N) 24 ml_provider 0%N "GetEnum")) = Some t ∧
    ob_type t = ob_type (@type_template debug_build) ∧
    tp_itemsize t = tp_itemsize (@type_template debug_build) ∧
    tp_dealloc t = Some FN_PyIBase_dealloc ∧
    tp_setattr t = Some FN_PyIBase_setattr ∧
    tp_compare t = Some FN_PyIBase_cmp ∧
    tp_repr t = Some FN_PyIBase_repr ∧
    tp_getattro t = Some FN_PyIBase_getattro ∧
    tp_doc t = None ∧
    tp_base t = tp_base (@type_template debug_build).
Proof.
  apply (@descriptors_share_type_signature debug_build (Some 101%N)
           ml_provider).
  apply constructed_provider.
Defined.

Lemma built_chain_has_no_cycle_witness : NoDup [100%N; 101%N; 102%N].
Proof.
  exact (@built_chain_has_no_cycle debug_build three_types_heap three_types
           three_types_built).
Defined.

Lemma deriving_extends_chain_witness :
  let derived :=
    OComType (@PyComTypeObject_ctor debug_build "PyIDerived" (Some 102%N) 32
                [def_Next] 0%N) in
  @built_chain debug_build (<[150%N := derived]> three_types_heap)
    (three_types ++ [(150%N, [def_Next])]) ∧
  ∀ j aj mlj (fuel : nat) name,
    three_types !! j = Some (aj, mlj) → (j < fuel)%nat →
    lookup_chain fuel (<[150%N := derived]> three_types_heap)
      (Some (chain_of aj)) name
    = lookup_chain fuel three_types_heap (Some (chain_of aj)) name.
Proof.
  intros derived.
  apply (@deriving_extends_chain debug_build three_types_heap three_types
           150%N [def_Next] derived).
  - apply three_types_built.
  - reflexivity.
  - apply (constructed_com (cfg := debug_build)).
Defined.

Lemma widths_round_trip_witness :
  let s := {| width := [1; 2; 3; 4; 5; -6] |} in
  ∃ p w1,
    PyObject_FromOLEMENUGROUPWIDTHS (Some s) widths_world = (Some p, w1) ∧
    curexc_type w1 = curexc_type widths_world ∧
    PyObject_AsOLEMENUGROUPWIDTHS p {| width := [0; 0; 0; 0; 0; 0] |} w1
    = (true, s, w1).
Proof.
  intros s.
  apply (widths_round_trip widths_world s {| width := [0; 0; 0; 0; 0; 0] |}).
  - split; [reflexivity|].
    repeat (constructor; [unfold INT_MIN, INT_MAX; lia|]). constructor.
  - reflexivity.
Defined.

Lemma null_widths_do_not_round_trip_witness :
  let s := {| width := [1; 2; 3; 4; 5; 6] |} in
  PyObject_FromOLEMENUGROUPWIDTHS None widths_world
  = (Some Py_None, widths_world) ∧
  PyObject_AsOLEMENUGROUPWIDTHS Py_None s widths_world
  = (false, s, raise PyExc_SystemError widths_world).
Proof.
  intros s.
  destruct (null_widths_do_not_round_trip widths_world s) as [Hfrom Has].
  split; [exact Hfrom | exact (Has eq_refl)].
Defined.

Lemma widths_of_wrong_length_are_refused_witness :
  let s := {| width := [9; 9; 9; 9; 9; 9] |} in
  PyObject_AsOLEMENUGROUPWIDTHS 120%N s widths_world
  = (false, s, raise PyExc_TypeError widths_world).
Proof.
  intros s.
  apply (widths_of_wrong_length_are_refused widths_world 120%N
           [Some 110%N; Some 111%N; Some 112%N; Some 113%N; Some 114%N] s).
  - reflexivity.
  - discriminate.
Defined.

Lemma failed_conversion_leaves_widths_half_written_witness :
  PyObject_AsOLEMENUGROUPWIDTHS 121%N {| width := [9; 9; 9; 9; 9; 9] |}
    widths_world
  = (false, {| width := [1; 2; 9; 9; 9; 9] |},
     raise PyExc_TypeError widths_world).
Proof.
  apply (failed_conversion_leaves_widths_half_written widths_world 121%N
           [110%N; 111%N] [1; 2] (Some Py_None)
           [Some 113%N; Some 114%N; Some 115%N] PyExc_TypeError
           {| width := [9; 9; 9; 9; 9; 9] |}).
  - reflexivity.
  - reflexivity.
  - repeat (constructor;
            [split; [reflexivity | unfold INT_MIN, INT_MAX; lia]|]).
    constructor.
  - reflexivity.
  - reflexivity.
Defined.
